(** * PhotoApp command-line client (src/main.py): embedding and properties

    The client is a menu loop over seven command handlers.  Every handler
    is a short sequence of console reads, gateway calls (database tier,
    object store) and prints.  The handlers are embedded as programs of a
    free monad over the calls the source makes; a program is run against
    an environment that answers the calls, and the sequence of calls with
    their answers is the trace of the run. *)

From Stdlib Require Import ZArith Lia Ascii String List DecimalString.
From stdpp Require Import gmap strings list.

Open Scope string_scope.
Open Scope list_scope.
Open Scope Z_scope.

(** ** Python values and built-ins used by the source *)
Module Py.

(** Values that travel between the program and the gateways: database
    cells and [print] arguments. *)
Inductive value : Type :=
| VNone
| VInt (z : Z)
| VStr (s : string).

(** A database row is a tuple of cells. *)
Definition row : Type := list value.

(** Exceptions the modelled code can raise or let through. *)
Inductive exn : Type :=
| ValueError
| TypeError
| IndexError
| EOFError
| SystemExit (code : Z)
| StoreError
| OtherError (what : string).

(** [str(z)] for an integer. *)
Definition str_of_Z (z : Z) : string := NilZero.string_of_int (Z.to_int z).

(** [str(v)]. *)
Definition str (v : value) : string :=
  match v with
  | VNone => "None"
  | VInt z => str_of_Z z
  | VStr s => s
  end.

(** The strings of [l] joined by single spaces, as [print] joins its
    arguments. *)
Fixpoint join_sp (l : list string) : string :=
  match l with
  | [] => ""
  | [s] => s
  | s :: r => String.append s (String.append " " (join_sp r))
  end.

(** The line that [print] writes for its arguments. *)
Definition render (args : list value) : string := join_sp (map str args).

(** Truth value of a row result: [None] and the empty tuple are false. *)
Definition truthy_row (r : option row) : bool :=
  match r with
  | Some (_ :: _) => true
  | _ => false
  end.

(** Truth value of an optional string: [None] and the empty string are
    false. *)
Definition truthy_str (r : option string) : bool :=
  match r with
  | Some (String _ _) => true
  | _ => false
  end.

(** *** [int(s)]

    A string stands for a Python [str] through its UTF-8 encoding, so a
    line read from the console is the bytes that were typed.  [int] follows
    CPython 3.11: [PyLong_FromUnicodeObject] first turns every white space
    and decimal digit outside the ASCII range into its ASCII counterpart,
    then [PyLong_FromString] skips white space, reads a sign and the
    digits, and skips white space again.  The character tables are those
    of Unicode 14.0.0. *)

Definition byte (c : ascii) : Z := Z.of_N (N_of_ascii c).

(** The six payload bits of a continuation byte. *)
Definition continuation (c : ascii) : option Z :=
  let b := byte c in
  if (128 <=? b) && (b <=? 191) then Some (b - 128) else None.

(** The code points of a string; [None] when the bytes are not the
    encoding of any [str] (overlong forms, surrogates, stray bytes). *)
Fixpoint code_points (s : string) : option (list Z) :=
  match s with
  | EmptyString => Some []
  | String c r =>
      let b := byte c in
      if b <? 128 then option_map (cons b) (code_points r)
      else if (194 <=? b) && (b <=? 223) then
        match r with
        | String c1 r1 =>
            match continuation c1 with
            | Some x1 =>
                option_map (cons ((b - 192) * 64 + x1)) (code_points r1)
            | None => None
            end
        | _ => None
        end
      else if (224 <=? b) && (b <=? 239) then
        match r with
        | String c1 (String c2 r2) =>
            match continuation c1, continuation c2 with
            | Some x1, Some x2 =>
                let cp := ((b - 224) * 64 + x1) * 64 + x2 in
                if (2048 <=? cp) && negb ((55296 <=? cp) && (cp <=? 57343))
                then option_map (cons cp) (code_points r2)
                else None
            | _, _ => None
            end
        | _ => None
        end
      else if (240 <=? b) && (b <=? 244) then
        match r with
        | String c1 (String c2 (String c3 r3)) =>
            match continuation c1, continuation c2, continuation c3 with
            | Some x1, Some x2, Some x3 =>
                let cp := (((b - 240) * 64 + x1) * 64 + x2) * 64 + x3 in
                if (65536 <=? cp) && (cp <=? 1114111)
                then option_map (cons cp) (code_points r3)
                else None
            | _, _, _ => None
            end
        | _ => None
        end
      else None
  end.

(** White space outside the ASCII range ([Py_UNICODE_ISSPACE]). *)
Definition unicode_spaces : list Z :=
  [133; 160; 5760; 8192; 8193; 8194; 8195; 8196; 8197; 8198; 8199; 8200;
   8201; 8202; 8232; 8233; 8239; 8287; 12288].

Definition is_unicode_space (cp : Z) : bool := existsb (Z.eqb cp) unicode_spaces.

(** The digit zero of every script with decimal digits: the nine code
    points after each are its digits one to nine. *)
Definition decimal_zeros : list Z :=
  [48; 1632; 1776; 1984; 2406; 2534; 2662; 2790; 2918; 3046; 3174; 3302;
   3430; 3558; 3664; 3792; 3872; 4160; 4240; 6112; 6160; 6470; 6608; 6784;
   6800; 6992; 7088; 7232; 7248; 42528; 43216; 43264; 43472; 43504; 43600;
   44016; 65296; 66720; 68912; 69734; 69872; 69942; 70096; 70384; 70736;
   70864; 71248; 71360; 71472; 71904; 72016; 72784; 73040; 73120; 92768;
   92864; 93008; 120782; 120792; 120802; 120812; 120822; 123200; 123632;
   125264; 130032].

(** [Py_UNICODE_TODECIMAL]. *)
Definition decimal_of (cp : Z) : option Z :=
  option_map (fun z => cp - z)
    (List.find (fun z => (z <=? cp) && (cp <=? z + 9)) decimal_zeros).

(** [_PyUnicode_TransformDecimalAndSpaceToASCII] on one code point: below
    127 it stays, white space becomes a space, a decimal digit its ASCII
    digit; anything else ([None]) makes the literal invalid. *)
Definition to_ascii (cp : Z) : option ascii :=
  if cp <? 127 then Some (ascii_of_N (Z.to_N cp))
  else if is_unicode_space cp then Some " "%char
  else option_map (fun d => ascii_of_N (Z.to_N (48 + d))) (decimal_of cp).

Fixpoint transform (cps : list Z) : option string :=
  match cps with
  | [] => Some EmptyString
  | cp :: r =>
      match to_ascii cp, transform r with
      | Some c, Some t => Some (String c t)
      | _, _ => None
      end
  end.

(** White space that [PyLong_FromString] skips at both ends
    ([Py_ISSPACE]): tab, line feed, vertical tab, form feed, carriage
    return and space. *)
Definition is_space (c : ascii) : bool :=
  let n := nat_of_ascii c in
  ((9 <=? n)%nat && (n <=? 13)%nat) || (n =? 32)%nat.

Definition digit_of (c : ascii) : option Z :=
  let n := nat_of_ascii c in
  if ((48 <=? n)%nat && (n <=? 57)%nat) then Some (Z.of_nat n - 48) else None.

Fixpoint lstrip (s : string) : string :=
  match s with
  | String c r => if is_space c then lstrip r else s
  | EmptyString => s
  end.

Definition strip (s : string) : string :=
  String.rev (lstrip (String.rev (lstrip s))).

(** Decimal digits, single underscores allowed between digits. *)
Fixpoint parse_digits (acc : Z) (after_digit : bool) (s : string) : option Z :=
  match s with
  | EmptyString => if after_digit then Some acc else None
  | String c r =>
      match digit_of c with
      | Some d => parse_digits (10 * acc + d) true r
      | None =>
          if (Ascii.eqb c "_" && after_digit)%bool
          then parse_digits acc false r
          else None
      end
  end.

(** The number of digits of a literal, underscores not counted. *)
Fixpoint count_digits (s : string) : Z :=
  match s with
  | EmptyString => 0
  | String c r =>
      match digit_of c with
      | Some _ => 1 + count_digits r
      | None => count_digits r
      end
  end.

(** The default of [sys.get_int_max_str_digits()]: a literal with more
    digits is refused. *)
Definition max_str_digits : Z := 4300.

(** Sign and digits, white space already stripped. *)
Definition parse_signed (t : string) : option Z :=
  match t with
  | String "+" r => parse_digits 0 false r
  | String "-" r => option_map Z.opp (parse_digits 0 false r)
  | _ => parse_digits 0 false t
  end.

(** [int(s)] for a string [s] in base ten: [None] stands for the
    [ValueError] Python raises. *)
Definition int (s : string) : option Z :=
  match code_points s with
  | Some cps =>
      match transform cps with
      | Some a =>
          let t := strip a in
          if max_str_digits <? count_digits t then None else parse_signed t
      | None => None
      end
  | None => None
  end.

(** Split a string at every occurrence of a character. *)
Fixpoint split_on (sep : ascii) (s : string) : list string :=
  match s with
  | EmptyString => [EmptyString]
  | String c r =>
      if Ascii.eqb c sep then EmptyString :: split_on sep r
      else match split_on sep r with
           | h :: t => String c h :: t
           | [] => [String c EmptyString]
           end
  end.

(** [pathlib.PurePosixPath(p).name]: the last component, empty and "."
    components dropped. *)
Definition path_name (p : string) : string :=
  List.last
    (List.filter (fun x => negb (String.eqb x "" || String.eqb x "."))
       (split_on "/" p))
    "".

(** The part of [name] from its last dot on, if there is one. *)
Fixpoint from_last_dot (name : string) : option string :=
  match name with
  | EmptyString => None
  | String c r =>
      match from_last_dot r with
      | Some t => Some t
      | None => if Ascii.eqb c "." then Some name else None
      end
  end.

(** [pathlib.Path(p).suffix]: the final extension with its dot; empty when
    the name has no dot, starts with its only dot, or ends with a dot. *)
Definition suffix (p : string) : string :=
  let name := path_name p in
  match from_last_dot name with
  | Some t =>
      if (String.eqb t name || String.eqb t ".")%bool then "" else t
  | None => ""
  end.

End Py.

Arguments Py.str_of_Z : simpl never.
Arguments Py.int : simpl never.
Arguments Py.suffix : simpl never.

Import Py.

(** ** Calls to the outside world

    Every interaction of src/main.py with the console, the local file
    system, the configuration parser, the database tier ([datatier]) and
    the object store ([awsutil], [boto3]) is a call; [answer c] is the type
    of what the call [c] gives back. *)

(** An open database connection and a bucket object are handles. *)
Definition conn : Type := Z.
Definition s3_bucket : Type := string.
Definition image : Type := string.

Inductive call : Type :=
| Print (line : string)
| Input
| PathExists (path : string)
| IsFile (path : string)
| Uuid4
| SetEnv (name val : string)
| BotoSetupSession (profile : string)
| ConfigRead (file : string)
| ConfigGet (section key : string)
| S3Bucket (name : string)
| GetDbConn (endpoint : string) (port : Z) (user pwd db : string)
| RetrieveOneRow (c : conn) (sql : string) (params : list value)
| RetrieveAllRows (c : conn) (sql : string) (params : list value)
| PerformAction (c : conn) (sql : string) (params : list value)
| UploadFile (local : string) (b : s3_bucket) (key : string)
| DownloadFile (b : s3_bucket) (key name : value)
| BucketObjectsAll (b : s3_bucket)
| Imread (file : string)
| Imshow (img : image)
| PltShow.

Definition answer (c : call) : Type :=
  match c with
  | Print _ => unit
  | Input => string
  | PathExists _ => bool
  | IsFile _ => bool
  | Uuid4 => string
  | SetEnv _ _ => unit
  | BotoSetupSession _ => unit
  | ConfigRead _ => unit
  | ConfigGet _ _ => string
  | S3Bucket _ => s3_bucket
  | GetDbConn _ _ _ _ _ => option conn
  | RetrieveOneRow _ _ _ => option row
  | RetrieveAllRows _ _ _ => list row
  | PerformAction _ _ _ => Z
  | UploadFile _ _ _ => option string
  | DownloadFile _ _ _ => option string
  | BucketObjectsAll _ => list string
  | Imread _ => image
  | Imshow _ => unit
  | PltShow => unit
  end.

(** A call returns or raises. *)
Inductive result (X : Type) : Type :=
| Ok (x : X)
| Err (e : exn).
Arguments Ok {X} x.
Arguments Err {X} e.

(** One entry of a trace: a call and how it ended. *)
Inductive event : Type :=
| Ev (c : call) (r : result (answer c)).

Definition trace : Type := list event.

(** ** Programs *)

Inductive prog (A : Type) : Type :=
| Ret (a : A)
| Throw (e : exn)
| Do (c : call) (k : answer c -> prog A).
Arguments Ret {A} a.
Arguments Throw {A} e.
Arguments Do {A} c k.

Fixpoint bind {A B : Type} (p : prog A) (f : A -> prog B) : prog B :=
  match p with
  | Ret a => f a
  | Throw e => Throw e
  | Do c k => Do c (fun x => bind (k x) f)
  end.

#[global] Instance prog_ret : MRet prog := fun A a => Ret a.
#[global] Instance prog_bind : MBind prog := fun A B f p => bind p f.

Definition perform (c : call) : prog (answer c) := Do c (fun x => Ret x).

(** How a program ends. *)
Inductive outcome (A : Type) : Type :=
| Returned (a : A)
| Raised (e : exn).
Arguments Returned {A} a.
Arguments Raised {A} e.

(** The exit status of the Python process. *)
Definition exit_status {A : Type} (o : outcome A) : Z :=
  match o with
  | Returned _ => 0
  | Raised (SystemExit code) => code
  | Raised _ => 1
  end.

(** *** Running a program in an environment *)
Section Run.
Context {W : Type}.
Variable env : forall c : call, W -> result (answer c) * W.

Fixpoint run {A : Type} (p : prog A) (w : W) : outcome A * W * trace :=
  match p with
  | Ret a => (Returned a, w, [])
  | Throw e => (Raised e, w, [])
  | Do c k =>
      match env c w with
      | (Ok x, w') =>
          let '(o, w'', t) := run (k x) w' in (o, w'', Ev c (Ok x) :: t)
      | (Err e, w') => (Raised e, w', [Ev c (Err e)])
      end
  end.
End Run.

(** *** All executions of a program

    [exec p t o]: some environment makes [p] produce the trace [t] and end
    as [o]. *)
Fixpoint exec {A : Type} (p : prog A) (t : trace) (o : outcome A) : Prop :=
  match p with
  | Ret a => t = [] /\ o = Returned a
  | Throw e => t = [] /\ o = Raised e
  | Do c k =>
      (exists x t', t = Ev c (Ok x) :: t' /\ exec (k x) t' o) \/
      (exists e, t = [Ev c (Err e)] /\ o = Raised e)
  end.

(** ** Python statements as programs *)

(** [print(a, b, ...)] *)
Definition print (args : list value) : prog unit := perform (Print (render args)).

(** [input()] *)
Definition input : prog string := perform Input.

(** [int(s)] on a string: the number or [ValueError]. *)
Definition py_int (s : string) : prog Z :=
  match Py.int s with
  | Some z => Ret z
  | None => Throw ValueError
  end.

(** [r[i]] on the result of a one-row query: [TypeError] on [None],
    [IndexError] past the end of the tuple. *)
Definition subscript (r : option row) (i : nat) : prog value :=
  match r with
  | None => Throw TypeError
  | Some cells =>
      match nth_error cells i with
      | Some v => Ret v
      | None => Throw IndexError
      end
  end.

(** [a + b] where the source concatenates strings. *)
Definition py_add (a b : value) : prog value :=
  match a, b with
  | VStr x, VStr y => Ret (VStr (x +:+ y))
  | VInt x, VInt y => Ret (VInt (x + y))
  | _, _ => Throw TypeError
  end.

(** [a, b = r] *)
Definition unpack2 (r : option row) : prog (value * value) :=
  match r with
  | None => Throw TypeError
  | Some [a; b] => Ret (a, b)
  | Some _ => Throw ValueError
  end.

(** [a, b, c, d = r] *)
Definition unpack4 (r : row) : prog (value * value * value * value) :=
  match r with
  | [a; b; c; d] => Ret (a, b, c, d)
  | _ => Throw ValueError
  end.

(** [for x in l: body] *)
Fixpoint for_each {A : Type} (l : list A) (body : A -> prog unit) : prog unit :=
  match l with
  | [] => Ret tt
  | x :: rest => body x;; for_each rest body
  end.

(** ** The query texts of the source *)

Definition star : string := String (ascii_of_nat 42) EmptyString.

(** stats: the two counting queries (COUNT of all rows). *)
Definition users_query : string := "SELECT COUNT(" +:+ star +:+ ") FROM users".
Definition assets_query : string := "SELECT COUNT(" +:+ star +:+ ") FROM assets".
(** users, assets *)
Definition list_user_query : string := "SELECT * FROM users ORDER BY userid DESC".
Definition list_asset_query : string := "SELECT * FROM assets ORDER BY assetid DESC".
(** download *)
Definition file_info_query : string :=
  "SELECT bucketkey, assetname FROM assets WHERE assetid = %s".
(** upload *)
Definition check_user_query : string := "SELECT userid FROM users WHERE userid = %s".
Definition insert_asset_query : string :=
  "INSERT INTO assets(userid, assetname, bucketkey) VALUES (%s, %s, %s)".
(** add_user *)
Definition insert_user_query : string :=
  "INSERT INTO users(email, lastname, firstname, bucketfolder) VALUES (%s, %s, %s, %s)".
(** upload, add_user *)
Definition last_id_query : string := "SELECT LAST_INSERT_ID();".

(** ** The commands of src/main.py *)

(** The menu lines of [prompt]. *)
Definition prompt : prog Z :=
  print [];;
  print [VStr ">> Enter a command:"];;
  print [VStr "   0 => end"];;
  print [VStr "   1 => stats"];;
  print [VStr "   2 => users"];;
  print [VStr "   3 => assets"];;
  print [VStr "   4 => download"];;
  print [VStr "   5 => download and display"];;
  print [VStr "   6 => upload"];;
  print [VStr "   7 => add user"];;
  s ← input;
  py_int s.

(** Command 1 *)
Definition stats (bucketname : string) (bucket : s3_bucket) (endpoint : string)
    (dbConn : conn) : prog unit :=
  print [VStr "S3 bucket name:"; VStr bucketname];;
  assets ← perform (BucketObjectsAll bucket);
  print [VStr "S3 assets:"; VInt (Z.of_nat (length assets))];;
  print [VStr "RDS MySQL endpoint:"; VStr endpoint];;
  users_cnt ← perform (RetrieveOneRow dbConn users_query []);
  (if truthy_row users_cnt
   then n ← subscript users_cnt 0; print [VStr "# of users:"; n]
   else Ret tt);;
  assets_cnt ← perform (RetrieveOneRow dbConn assets_query []);
  if truthy_row assets_cnt
  then n ← subscript assets_cnt 0; print [VStr "# of assets:"; n]
  else Ret tt.

(** Command 2 *)
Definition users (dbConn : conn) : prog unit :=
  users_ls ← perform (RetrieveAllRows dbConn list_user_query []);
  for_each users_ls (fun user =>
    id ← subscript (Some user) 0;
    email ← subscript (Some user) 1;
    last ← subscript (Some user) 2;
    name0 ← py_add last (VStr " , ");
    first ← subscript (Some user) 3;
    full_name ← py_add name0 first;
    folder ← subscript (Some user) 4;
    print [VStr "User Id:"; id];;
    print [VStr "  Email:"; email];;
    print [VStr "  Name:"; full_name];;
    print [VStr "  Folder:"; folder]).

(** Command 3 *)
Definition assets (dbConn : conn) : prog unit :=
  assets_ls ← perform (RetrieveAllRows dbConn list_asset_query []);
  for_each assets_ls (fun asset =>
    '(asset_id, user_id, org_name, key_name) ← unpack4 asset;
    print [VStr "Asset id:"; asset_id];;
    print [VStr "  User id:"; user_id];;
    print [VStr "  Original name:"; org_name];;
    print [VStr "  Key name:"; key_name]).

(** Commands 4 and 5 *)
Definition download (dbConn : conn) (bucket : s3_bucket) (display : bool) : prog unit :=
  print [VStr "Enter asset id>"];;
  asset_id ← input;
  file_info ← perform (RetrieveOneRow dbConn file_info_query [VStr asset_id]);
  if truthy_row file_info then
    '(key, orginial_fname) ← unpack2 file_info;
    downloaded_file ← perform (DownloadFile bucket key orginial_fname);
    if truthy_str downloaded_file then
      print [VStr "Downloaded from S3 and saved as ' "; orginial_fname; VStr " '"];;
      if display then
        image ← perform (Imread (default "" downloaded_file));
        perform (Imshow image);;
        perform PltShow
      else Ret tt
    else print [VStr "No such asset..."]
  else print [VStr "No such asset..."].

(** Command 6 *)
Definition upload (dbConn : conn) (bucket : s3_bucket) : prog unit :=
  print [VStr "Enter local filename>"];;
  local_fname ← input;
  found ← perform (PathExists local_fname);
  if negb found then
    print [VStr ("Local file ' " +:+ local_fname +:+ " ' does not exist...")]
  else
    print [VStr "Enter user id>"];;
    user_id ← input;
    user_row ← perform (RetrieveOneRow dbConn check_user_query [VStr user_id]);
    if negb (truthy_row user_row) then print [VStr "No such user..."]
    else
      fresh ← perform Uuid4;
      let key := fresh +:+ suffix local_fname in
      s3_key ← perform (UploadFile local_fname bucket key);
      if negb (truthy_str s3_key) then print [VStr "Failed to upload the file to S3."]
      else
        print [VStr ("Uploaded and stored in S3 as ' " +:+ default "" s3_key +:+ " '")];;
        res ← perform (PerformAction dbConn insert_asset_query
                         [VStr user_id; VStr local_fname; VStr (default "" s3_key)]);
        if res <=? 0 then print [VStr "Failed to insert asset info into the database."]
        else
          last_id ← perform (RetrieveOneRow dbConn last_id_query []);
          new_id ← subscript last_id 0;
          print [VStr "Recorded in RDS under asset id "; new_id].

(** Command 7 *)
Definition add_user (dbConn : conn) (bucket : s3_bucket) : prog unit :=
  print [VStr "Enter user's email>"];;
  email ← input;
  print [VStr "Enter user's last (family) name>"];;
  last_name ← input;
  print [VStr "Enter user's first (given) name>"];;
  first_name ← input;
  folder ← perform Uuid4;
  res ← perform (PerformAction dbConn insert_user_query
                   [VStr email; VStr last_name; VStr first_name; VStr folder]);
  if res <=? 0 then print [VStr "Failed to insert user info into the database."]
  else
    last_id ← perform (RetrieveOneRow dbConn last_id_query []);
    new_id ← subscript last_id 0;
    print [VStr "Recorded in RDS under user id "; new_id].

(** ** The command loop *)

Inductive loop_state : Type :=
| AWAITING_COMMAND
| TERMINATED.

Section Session.
Variables (bucketname : string) (bucket : s3_bucket) (endpoint : string)
          (dbConn : conn).

(** The body of the [while]: the chain of tests on [cmd]. *)
Definition dispatch (cmd : Z) : prog unit :=
  if cmd =? 1 then stats bucketname bucket endpoint dbConn
  else if cmd =? 2 then users dbConn
  else if cmd =? 3 then assets dbConn
  else if cmd =? 4 then download dbConn bucket false
  else if cmd =? 5 then download dbConn bucket true
  else if cmd =? 6 then upload dbConn bucket
  else if cmd =? 7 then add_user dbConn bucket
  else print [VStr "** Unknown command, try again..."].

(** [cmd = prompt()] followed by [while cmd != 0: ...; cmd = prompt()].
    Both calls of [prompt] lead to the loop test, so the loop is the
    program point "about to call prompt": from there the code reads a
    command, leaves the loop on 0 and otherwise runs the body and is
    back at the same point.  [fuel] bounds the number of commands read;
    with none left the program is still awaiting a command. *)
Fixpoint command_loop (fuel : nat) : prog loop_state :=
  match fuel with
  | O => Ret AWAITING_COMMAND
  | S fuel' =>
      cmd ← prompt;
      if cmd =? 0 then Ret TERMINATED
      else dispatch cmd;; command_loop fuel'
  end.

(** The menu: the command each code stands for, as [prompt] lists them
    and as the section headers of src/main.py number them. *)
Definition handler_of (cmd : Z) : option (prog unit) :=
  match cmd with
  | 1 => Some (stats bucketname bucket endpoint dbConn)
  | 2 => Some (users dbConn)
  | 3 => Some (assets dbConn)
  | 4 => Some (download dbConn bucket false)
  | 5 => Some (download dbConn bucket true)
  | 6 => Some (upload dbConn bucket)
  | 7 => Some (add_user dbConn bucket)
  | _ => None
  end.
End Session.

(** The top-level code of src/main.py. *)
Definition main (fuel : nat) : prog loop_state :=
  print [VStr "** Welcome to PhotoApp **"];;
  print [];;
  print [VStr "What config file to use for this session?"];;
  print [VStr "Press ENTER to use default (photoapp-config.ini),"];;
  print [VStr "otherwise enter name of config file>"];;
  s ← input;
  let config_file := if String.eqb s "" then "photoapp-config.ini" else s in
  is_file ← perform (IsFile config_file);
  if negb is_file then
    print [VStr "**ERROR: config file '"; VStr config_file;
           VStr "' does not exist, exiting"];;
    Throw (SystemExit 0)
  else
    perform (SetEnv "AWS_SHARED_CREDENTIALS_FILE" config_file);;
    perform (BotoSetupSession "s3readwrite");;
    perform (ConfigRead config_file);;
    bucketname ← perform (ConfigGet "s3" "bucket_name");
    bucket ← perform (S3Bucket bucketname);
    endpoint ← perform (ConfigGet "rds" "endpoint");
    port_text ← perform (ConfigGet "rds" "port_number");
    portnum ← py_int port_text;
    username ← perform (ConfigGet "rds" "user_name");
    pwd ← perform (ConfigGet "rds" "user_pwd");
    dbname ← perform (ConfigGet "rds" "db_name");
    dbConn ← perform (GetDbConn endpoint portnum username pwd dbname);
    match dbConn with
    | None =>
        print [VStr "**ERROR: unable to connect to database, exiting"];;
        Throw (SystemExit 0)
    | Some dbConn =>
        st ← command_loop bucketname bucket endpoint dbConn fuel;
        match st with
        | TERMINATED => print [];; print [VStr "** done **"];; Ret TERMINATED
        | AWAITING_COMMAND => Ret AWAITING_COMMAND
        end
    end.

(** ** What a trace shows *)

(** The line a [print] call was asked to write. *)
Definition printed_line (e : event) : option string :=
  match e with
  | Ev (Print line) _ => Some line
  | _ => None
  end.

(** The console output of a run, oldest line first. *)
Definition printed (t : trace) : list string := omap printed_line t.

Definition is_input (e : event) : bool :=
  match e with
  | Ev Input _ => true
  | _ => false
  end.

(** Calls that reach the database tier. *)
Definition is_db_call (e : event) : bool :=
  match e with
  | Ev (GetDbConn _ _ _ _ _) _ | Ev (RetrieveOneRow _ _ _) _
  | Ev (RetrieveAllRows _ _ _) _ | Ev (PerformAction _ _ _) _ => true
  | _ => false
  end.

(** Calls that modify the database. *)
Definition is_db_write (e : event) : bool :=
  match e with
  | Ev (PerformAction _ _ _) _ => true
  | _ => false
  end.

(** Calls that reach the object store. *)
Definition is_store_call (e : event) : bool :=
  match e with
  | Ev (S3Bucket _) _ | Ev (UploadFile _ _ _) _ | Ev (DownloadFile _ _ _) _
  | Ev (BucketObjectsAll _) _ => true
  | _ => false
  end.

Definition is_gateway_call (e : event) : bool := is_db_call e || is_store_call e.

(** Calls that write to the local file system: only a download does. *)
Definition is_file_write (e : event) : bool :=
  match e with
  | Ev (DownloadFile _ _ _) _ => true
  | _ => false
  end.

(** A trace that consists of console prints only. *)
Definition only_prints (t : trace) : bool :=
  forallb (fun e => match printed_line e with Some _ => true | None => false end) t.


(** The call of an event. *)
Definition call_of (e : event) : call :=
  match e with
  | Ev c _ => c
  end.

(** Every call a program can make satisfies [P]. *)
Fixpoint calls_only {A : Type} (P : call -> bool) (p : prog A) : Prop :=
  match p with
  | Ret _ => True
  | Throw _ => True
  | Do c k => P c = true /\ forall x, calls_only P (k x)
  end.

(** Console calls. *)
Definition is_console (c : call) : bool :=
  match c with
  | Print _ | Input => true
  | _ => false
  end.

(** The calls of the start-up code: configuration and connections. *)
Definition is_startup (c : call) : bool :=
  match c with
  | IsFile _ | SetEnv _ _ | BotoSetupSession _ | ConfigRead _ | ConfigGet _ _
  | S3Bucket _ | GetDbConn _ _ _ _ _ => true
  | _ => false
  end.

(** The statement that inserts an asset row. *)
Definition is_asset_insert (c : call) : bool :=
  match c with
  | PerformAction _ sql _ => String.eqb sql insert_asset_query
  | _ => false
  end.

(** Calls the seven commands and the prompt never make. *)
Definition not_startup (c : call) : bool := negb (is_startup c).
Definition not_asset_insert (c : call) : bool := negb (is_asset_insert c).

(** Append a trace in front of the result of a run. *)
Definition after {A W : Type} (t0 : trace) (r : outcome A * W * trace)
  : outcome A * W * trace :=
  let '(o, w, t) := r in (o, w, t0 ++ t).

(** The world a run ends in. *)
Definition world_of {A W : Type} (r : outcome A * W * trace) : W := snd (fst r).
Definition outcome_of {A W : Type} (r : outcome A * W * trace) : outcome A :=
  fst (fst r).
Definition trace_of {A W : Type} (r : outcome A * W * trace) : trace := snd r.
(** ** A reference environment

    Modelled from the spec: the modules [datatier] and [awsutil] that
    src/main.py imports are not part of the sources at hand, and neither
    are the database and the bucket behind them.  The environment below
    answers every call the way sections 3, 4.1 and 4.2 of the
    specification describe the two gateways, over a database of two
    tables, a bucket of blobs, a local disk and a console. *)
Module Model.

(** Rows of the two tables of the metadata schema. *)
Record user : Type := User {
  userid : Z;
  email : string;
  lastname : string;
  firstname : string;
  bucketfolder : string
}.

Record asset : Type := Asset {
  assetid : Z;
  owner : Z;
  assetname : string;
  bucketkey : string
}.

Record world : Type := World {
  stdin : list string;           (* lines the user will type *)
  stdout : list string;          (* lines printed so far, oldest first *)
  disk : gmap string string;     (* local files: path to content *)
  fresh_ids : list string;       (* identifiers [uuid4] will hand out *)
  config : list (string * string * string);
                                 (* section, key, value of the config file *)
  db_up : bool;                  (* can the database be reached? *)
  users_tbl : list user;
  assets_tbl : list asset;
  last_insert : Z;               (* what LAST_INSERT_ID() reports *)
  blobs : gmap string string     (* the bucket: store key to content *)
}.

Definition set_stdin (w : world) (x : list string) : world :=
  World x (stdout w) (disk w) (fresh_ids w) (config w) (db_up w)
        (users_tbl w) (assets_tbl w) (last_insert w) (blobs w).
Definition set_stdout (w : world) (x : list string) : world :=
  World (stdin w) x (disk w) (fresh_ids w) (config w) (db_up w)
        (users_tbl w) (assets_tbl w) (last_insert w) (blobs w).
Definition set_disk (w : world) (x : gmap string string) : world :=
  World (stdin w) (stdout w) x (fresh_ids w) (config w) (db_up w)
        (users_tbl w) (assets_tbl w) (last_insert w) (blobs w).
Definition set_fresh_ids (w : world) (x : list string) : world :=
  World (stdin w) (stdout w) (disk w) x (config w) (db_up w)
        (users_tbl w) (assets_tbl w) (last_insert w) (blobs w).
Definition add_user_row (w : world) (u : user) : world :=
  World (stdin w) (stdout w) (disk w) (fresh_ids w) (config w) (db_up w)
        (u :: users_tbl w) (assets_tbl w) (userid u) (blobs w).
Definition add_asset_row (w : world) (a : asset) : world :=
  World (stdin w) (stdout w) (disk w) (fresh_ids w) (config w) (db_up w)
        (users_tbl w) (a :: assets_tbl w) (assetid a) (blobs w).
Definition set_blobs (w : world) (x : gmap string string) : world :=
  World (stdin w) (stdout w) (disk w) (fresh_ids w) (config w) (db_up w)
        (users_tbl w) (assets_tbl w) (last_insert w) x.

(** The identifier an auto-increment column gives the next row: larger
    than every identifier in the table. *)
Definition next_id (ids : list Z) : Z := 1 + fold_right Z.max 0 ids.

(** ORDER BY ... DESC, by insertion. *)
Fixpoint insert_desc {A : Type} (key : A -> Z) (x : A) (l : list A) : list A :=
  match l with
  | [] => [x]
  | y :: rest =>
      if key y <? key x then x :: y :: rest
      else y :: insert_desc key x rest
  end.

Fixpoint sort_desc {A : Type} (key : A -> Z) (l : list A) : list A :=
  match l with
  | [] => []
  | x :: rest => insert_desc key x (sort_desc key rest)
  end.

Definition user_row (u : user) : row :=
  [VInt (userid u); VStr (email u); VStr (lastname u); VStr (firstname u);
   VStr (bucketfolder u)].

Definition asset_row (a : asset) : row :=
  [VInt (assetid a); VInt (owner a); VStr (assetname a); VStr (bucketkey a)].

(** A text parameter selects the row whose identifier it reads as. *)
Definition matches (param : string) (id : Z) : bool :=
  match Py.int param with
  | Some z => z =? id
  | None => false
  end.

Definition find_user (param : string) (l : list user) : option user :=
  List.find (fun u => matches param (userid u)) l.

Definition find_asset (param : string) (l : list asset) : option asset :=
  List.find (fun a => matches param (assetid a)) l.

(** Modelled from the spec: [datatier.retrieve_one_row], absent from the
    sources; section 4.1 gives it as the first row of the result, or the
    empty tuple. *)
Definition retrieve_one_row (w : world) (sql : string) (params : list value)
  : result (option row) :=
  if String.eqb sql users_query then
    Ok (Some [VInt (Z.of_nat (length (users_tbl w)))])
  else if String.eqb sql assets_query then
    Ok (Some [VInt (Z.of_nat (length (assets_tbl w)))])
  else if String.eqb sql last_id_query then
    Ok (Some [VInt (last_insert w)])
  else if String.eqb sql file_info_query then
    match params with
    | [VStr p] =>
        match find_asset p (assets_tbl w) with
        | Some a => Ok (Some [VStr (bucketkey a); VStr (assetname a)])
        | None => Ok (Some [])
        end
    | _ => Err StoreError
    end
  else if String.eqb sql check_user_query then
    match params with
    | [VStr p] =>
        match find_user p (users_tbl w) with
        | Some u => Ok (Some [VInt (userid u)])
        | None => Ok (Some [])
        end
    | _ => Err StoreError
    end
  else Err StoreError.

(** Modelled from the spec: [datatier.retrieve_all_rows], absent from the
    sources; section 4.1 gives it as every row, in the order the query
    asks for. *)
Definition retrieve_all_rows (w : world) (sql : string) (params : list value)
  : result (list row) :=
  if String.eqb sql list_user_query then
    Ok (map user_row (sort_desc userid (users_tbl w)))
  else if String.eqb sql list_asset_query then
    Ok (map asset_row (sort_desc assetid (assets_tbl w)))
  else Err StoreError.

(** Modelled from the spec: [datatier.perform_action], absent from the
    sources; section 4.1 gives it as the number of rows affected, and
    section 3 gives the constraints of the two tables: a statement the
    database rejects (unknown owner, e-mail already taken) is a
    [StoreError]. *)
Definition perform_action (w : world) (sql : string) (params : list value)
  : result Z * world :=
  if String.eqb sql insert_asset_query then
    match params with
    | [VStr uid; VStr name; VStr key] =>
        match find_user uid (users_tbl w) with
        | Some u =>
            let a := Asset (next_id (map assetid (assets_tbl w)))
                           (userid u) name key in
            (Ok 1, add_asset_row w a)
        | None => (Err StoreError, w)
        end
    | _ => (Err StoreError, w)
    end
  else if String.eqb sql insert_user_query then
    match params with
    | [VStr e; VStr l; VStr f; VStr folder] =>
        if existsb (fun u => String.eqb (email u) e) (users_tbl w)
        then (Err StoreError, w)
        else
          let u := User (next_id (map userid (users_tbl w))) e l f folder in
          (Ok 1, add_user_row w u)
    | _ => (Err StoreError, w)
    end
  else (Err StoreError, w).

(** Modelled from the spec: [awsutil.upload_file], absent from the
    sources; section 4.2 gives it as the destination key, or failure (here
    when the local file cannot be read). *)
Definition upload_file (w : world) (local key : string)
  : result (option string) * world :=
  match disk w !! local with
  | Some content => (Ok (Some key), set_blobs w (<[key := content]> (blobs w)))
  | None => (Ok None, w)
  end.

(** Modelled from the spec: [awsutil.download_file], absent from the
    sources; section 4.2 gives it as the local name the blob was saved
    under, or failure when the bucket has no such key. *)
Definition download_file (w : world) (key name : value)
  : result (option string) * world :=
  match key, name with
  | VStr k, VStr n =>
      match blobs w !! k with
      | Some content => (Ok (Some n), set_disk w (<[n := content]> (disk w)))
      | None => (Ok None, w)
      end
  | _, _ => (Ok None, w)
  end.

Definition config_get (w : world) (section key : string) : result string :=
  match List.find (fun e => String.eqb (fst (fst e)) section
                            && String.eqb (snd (fst e)) key) (config w) with
  | Some e => Ok (snd e)
  | None => Err (OtherError "NoOptionError")
  end.

(** Modelled from the spec: how the reference world answers each call,
    the gateways as above, the console and the local disk as lists and
    maps. *)
Definition env (c : call) (w : world) : result (answer c) * world :=
  match c return result (answer c) * world with
  | Print line => (Ok tt, set_stdout w (stdout w ++ [line]))
  | Input =>
      match stdin w with
      | line :: rest => (Ok line, set_stdin w rest)
      | [] => (Err EOFError, w)
      end
  | PathExists p => (Ok (bool_decide (is_Some (disk w !! p))), w)
  | IsFile p => (Ok (bool_decide (is_Some (disk w !! p))), w)
  | Uuid4 =>
      match fresh_ids w with
      | u :: rest => (Ok u, set_fresh_ids w rest)
      | [] => (Err (OtherError "uuid4"), w)
      end
  | SetEnv _ _ => (Ok tt, w)
  | BotoSetupSession _ => (Ok tt, w)
  | ConfigRead _ => (Ok tt, w)
  | ConfigGet section key => (config_get w section key, w)
  | S3Bucket name => (Ok name, w)
  | GetDbConn _ _ _ _ _ => (Ok (if db_up w then Some 1 else None), w)
  | RetrieveOneRow _ sql params => (retrieve_one_row w sql params, w)
  | RetrieveAllRows _ sql params => (retrieve_all_rows w sql params, w)
  | PerformAction _ sql params => perform_action w sql params
  | UploadFile local _ key => upload_file w local key
  | DownloadFile _ key name => download_file w key name
  | BucketObjectsAll _ => (Ok (map fst (map_to_list (blobs w))), w)
  | Imread file =>
      match disk w !! file with
      | Some content => (Ok content, w)
      | None => (Err (OtherError "FileNotFoundError"), w)
      end
  | Imshow _ => (Ok tt, w)
  | PltShow => (Ok tt, w)
  end.

(** What an event of a run does to the users table: only a successful
    insert of a user row changes it. *)
Definition replay_user (ev : event) (tbl : list user) : list user :=
  match ev with
  | Ev (PerformAction _ sql [VStr e; VStr l; VStr f; VStr folder]) (Ok _) =>
      if String.eqb sql insert_user_query
      then User (next_id (map userid tbl)) e l f folder :: tbl
      else tbl
  | _ => tbl
  end.

(** The four lines the users command prints for one user. *)
Definition user_block (u : user) : list string :=
  [render [VStr "User Id:"; VInt (userid u)];
   "  Email: " +:+ email u;
   "  Name: " +:+ ((lastname u +:+ " , ") +:+ firstname u);
   "  Folder: " +:+ bucketfolder u].

(** The invariant of the data model: the store key of every asset row
    names a blob of the bucket. *)
Definition backed (w : world) : Prop :=
  forall a, In a (assets_tbl w) -> is_Some (blobs w !! bucketkey a).

(** A world to start from: [lines] typed at the console, [ids] for
    [uuid4], one local file per entry of [files]. *)
Definition initial (lines ids : list string) (files : list (string * string))
    (us : list user) (up : bool) : world :=
  World lines [] (list_to_map files) ids
        [("s3", "bucket_name", "photoapp-bucket");
         ("rds", "endpoint", "db.example.org");
         ("rds", "port_number", "3306");
         ("rds", "user_name", "photoapp");
         ("rds", "user_pwd", "secret");
         ("rds", "db_name", "photoapp")]
        up us [] 0 ∅.

End Model.


(** ** Further classifiers of calls *)

(** The statement texts that occur in src/main.py. *)
Definition source_queries : list string :=
  [users_query; assets_query; list_user_query; list_asset_query;
   file_info_query; check_user_query; insert_asset_query; insert_user_query;
   last_id_query].

(** The statement of a database call. *)
Definition sql_of (c : call) : option string :=
  match c with
  | RetrieveOneRow _ sql _ | RetrieveAllRows _ sql _ | PerformAction _ sql _ =>
      Some sql
  | _ => None
  end.

(** A call whose statement, if it has one, is a text of the source. *)
Definition fixed_statement (c : call) : bool :=
  match sql_of c with
  | Some sql => existsb (String.eqb sql) source_queries
  | None => true
  end.

(** A call that, if it writes to the database, is one of the two
    inserts. *)
Definition insert_only (c : call) : bool :=
  match c with
  | PerformAction _ sql _ =>
      String.eqb sql insert_asset_query || String.eqb sql insert_user_query
  | _ => true
  end.

(** Calls of a command that only reports: prints, queries and the bucket
    listing. *)
Definition read_only (c : call) : bool :=
  match c with
  | Print _ | RetrieveOneRow _ _ _ | RetrieveAllRows _ _ _
  | BucketObjectsAll _ => true
  | _ => false
  end.

(** Calls that open a connection. *)
Definition is_connect (e : event) : bool :=
  match e with
  | Ev (GetDbConn _ _ _ _ _) _ => true
  | _ => false
  end.


(** ** Environments with faults

    The reference environment with some answers replaced: what the
    gateways do when the database rejects a statement by returning a
    count, or a query comes back empty. *)
Definition override : Type := forall c : call, option (result (answer c)).

Definition env_with (ov : override) (c : call) (w : Model.world)
  : result (answer c) * Model.world :=
  match ov c with
  | Some r => (r, w)
  | None => Model.env c w
  end.

(** Every [perform_action] reports -1: the statement failed. *)
Definition insert_rejected : override := fun c =>
  match c return option (result (answer c)) with
  | PerformAction _ _ _ => Some (Ok (-1))
  | _ => None
  end.

(** The database is out of reach: every statement raises [StoreError]. *)
Definition store_down : override := fun c =>
  match c return option (result (answer c)) with
  | RetrieveOneRow _ _ _ => Some (Err StoreError)
  | RetrieveAllRows _ _ _ => Some (Err StoreError)
  | PerformAction _ _ _ => Some (Err StoreError)
  | _ => None
  end.

(** Every one-row query comes back with the empty tuple. *)
Definition rows_missing : override := fun c =>
  match c return option (result (answer c)) with
  | RetrieveOneRow _ _ _ => Some (Ok (Some []))
  | _ => None
  end.

(** Inserts succeed but the query for the last identifier comes back
    empty. *)
Definition last_id_missing : override := fun c =>
  match c return option (result (answer c)) with
  | PerformAction _ _ _ => Some (Ok 1)
  | RetrieveOneRow _ sql _ =>
      if String.eqb sql last_id_query then Some (Ok (Some [])) else None
  | _ => None
  end.

(** ** What the reporting commands print, read off a query result *)

(** The line stats prints for a count, when the count query gave a row. *)
Definition count_line (label : string) (r : option row) : list string :=
  match r with
  | Some (n :: _) => [render [VStr label; n]]
  | _ => []
  end.

(** The block users prints for a row: five cells, the two names text. *)
Definition user_lines (r : row) : option (list string) :=
  match r with
  | id :: email :: VStr last :: VStr first :: folder :: _ =>
      Some [render [VStr "User Id:"; id];
            render [VStr "  Email:"; email];
            render [VStr "  Name:"; VStr ((last +:+ " , ") +:+ first)];
            render [VStr "  Folder:"; folder]]
  | _ => None
  end.

(** The block assets prints for a row: exactly four cells. *)
Definition asset_lines (r : row) : option (list string) :=
  match r with
  | [asset_id; user_id; org_name; key_name] =>
      Some [render [VStr "Asset id:"; asset_id];
            render [VStr "  User id:"; user_id];
            render [VStr "  Original name:"; org_name];
            render [VStr "  Key name:"; key_name]]
  | _ => None
  end.
(** ** Basic facts about programs, runs and executions *)

Lemma value_eq_dec (a b : value) : {a = b} + {a <> b}.
Proof.
  decide equality; [apply Z.eq_dec | apply string_dec].
Defined.

Lemma call_eq_dec (a b : call) : {a = b} + {a <> b}.
Proof.
  decide equality;
    try apply string_dec; try apply Z.eq_dec;
    try apply (List.list_eq_dec value_eq_dec); apply value_eq_dec.
Defined.

(** Two equal events have the same call and the same result. *)
Lemma Ev_inj (c c' : call) (r : result (answer c)) (r' : result (answer c')) :
  Ev c r = Ev c' r' -> exists H : c = c', eq_rect c (fun x => result (answer x)) r c' H = r'.
Proof.
  intros E. injection E as Hc Hr. subst c'. exists eq_refl. simpl.
  apply (Eqdep_dec.inj_pair2_eq_dec call call_eq_dec) in Hr. exact Hr.
Qed.

Lemma Ev_inj_result (c : call) (r r' : result (answer c)) :
  Ev c r = Ev c r' -> r = r'.
Proof.
  intros E. injection E as Hr.
  apply (Eqdep_dec.inj_pair2_eq_dec call call_eq_dec) in Hr. exact Hr.
Qed.

Lemma Ev_inj_call (c c' : call) (r : result (answer c)) (r' : result (answer c')) :
  Ev c r = Ev c' r' -> c = c'.
Proof. intros E. injection E as Hc _. exact Hc. Qed.

Section RunFacts.
Context {W : Type}.
Variable env : forall c : call, W -> result (answer c) * W.

(** Running [p] then [f] is running [p] and, if it returns, [f]. *)
Lemma run_bind {A B : Type} (p : prog A) (f : A -> prog B) (w : W) :
  run env (bind p f) w =
  match run env p w with
  | (Returned a, w1, t1) =>
      let '(o, w2, t2) := run env (f a) w1 in (o, w2, t1 ++ t2)
  | (Raised e, w1, t1) => (Raised e, w1, t1)
  end.
Proof.
  revert w. induction p as [a | e | c k IH]; intros w; simpl.
  - destruct (run env (f a) w) as [[o w2] t2]. reflexivity.
  - reflexivity.
  - destruct (env c w) as [[x | e] w'].
    + rewrite IH. destruct (run env (k x) w') as [[[a | e] w1] t1].
      * destruct (run env (f a) w1) as [[o w2] t2]. reflexivity.
      * reflexivity.
    + reflexivity.
Qed.

(** Every run is an execution. *)
Lemma run_exec {A : Type} (p : prog A) (w w' : W) (o : outcome A) (t : trace) :
  run env p w = (o, w', t) -> exec p t o.
Proof.
  revert w w' o t. induction p as [a | e | c k IH]; intros w w' o t; simpl.
  - intros E. injection E as <- _ <-. split; reflexivity.
  - intros E. injection E as <- _ <-. split; reflexivity.
  - destruct (env c w) as [[x | e] w1].
    + destruct (run env (k x) w1) as [[o1 w2] t1] eqn:R.
      intros E. injection E as <- _ <-.
      left. exists x, t1. split; [reflexivity | eapply IH; exact R].
    + intros E. injection E as <- _ <-.
      right. exists e. split; reflexivity.
Qed.

Lemma run_is_exec {A : Type} (p : prog A) (w : W) :
  exec p (trace_of (run env p w)) (outcome_of (run env p w)).
Proof.
  destruct (run env p w) as [[o w'] t] eqn:R. eapply run_exec. exact R.
Qed.

(** A property kept by every call a program can make is kept by its
    runs. *)
Lemma run_preserves {A : Type} (I : W -> Prop) (P : call -> bool) (p : prog A)
    (w : W) :
  (forall c w0, P c = true -> I w0 -> I (snd (env c w0))) ->
  calls_only P p -> I w -> I (world_of (run env p w)).
Proof.
  intros Hstep. revert w. induction p as [a | e | c k IH]; intros w Hp Hw.
  - exact Hw.
  - exact Hw.
  - destruct Hp as [Hc Hk]. specialize (Hstep c w Hc Hw).
    simpl. destruct (env c w) as [[x | e] w1]; simpl in Hstep.
    + specialize (IH x w1 (Hk x) Hstep).
      destruct (run env (k x) w1) as [[o w2] t]. exact IH.
    + exact Hstep.
Qed.

(** The world after [bind p f]. *)
Lemma world_of_bind {A B : Type} (p : prog A) (f : A -> prog B) (w : W) :
  world_of (run env (bind p f) w) =
  match outcome_of (run env p w) with
  | Returned a => world_of (run env (f a) (world_of (run env p w)))
  | Raised _ => world_of (run env p w)
  end.
Proof.
  rewrite run_bind. unfold world_of, outcome_of.
  destruct (run env p w) as [[[a | e] w1] t1]; simpl.
  - destruct (run env (f a) w1) as [[o w2] t2]. reflexivity.
  - reflexivity.
Qed.

(** The world after one call followed by the rest of the program. *)
Lemma world_of_perform {B : Type} (c : call) (f : answer c -> prog B) (w : W) :
  world_of (run env (bind (perform c) f) w) =
  match env c w with
  | (Ok x, w1) => world_of (run env (f x) w1)
  | (Err _, w1) => w1
  end.
Proof.
  unfold world_of. simpl. destruct (env c w) as [[x | e] w1]; [|reflexivity].
  destruct (run env (f x) w1) as [[o w2] t]. reflexivity.
Qed.

(** The first event of a run is the first call of the program. *)
Lemma trace_of_Do {B : Type} (c : call) (k : answer c -> prog B) (w : W) :
  exists r rest, trace_of (run env (Do c k) w) = Ev c r :: rest.
Proof.
  simpl. destruct (env c w) as [[x | e] w1].
  - destruct (run env (k x) w1) as [[o w2] t]. exists (Ok x), t. reflexivity.
  - exists (Err e), []. reflexivity.
Qed.
End RunFacts.

(** An execution of [bind p f] is an execution of [p] that raises, or one
    that returns followed by an execution of [f]. *)
Lemma exec_bind {A B : Type} (p : prog A) (f : A -> prog B) (t : trace)
    (o : outcome B) :
  exec (bind p f) t o <->
  (exists a t1 t2, exec p t1 (Returned a) /\ exec (f a) t2 o /\ t = t1 ++ t2) \/
  (exists e, exec p t (Raised e) /\ o = Raised e).
Proof.
  revert t o. induction p as [a | e | c k IH]; intros t o; simpl.
  - split.
    + intros H. left. exists a, [], t. repeat split; [exact H].
    + intros [(a' & t1 & t2 & [-> Ha] & H & ->) | (e & [_ He] & _)].
      * injection Ha as <-. exact H.
      * discriminate He.
  - split.
    + intros [-> ->]. right. exists e. repeat split.
    + intros [(a' & t1 & t2 & [_ Ha] & _) | (e' & [-> He] & ->)].
      * discriminate Ha.
      * injection He as <-. split; reflexivity.
  - split.
    + intros [(x & t' & -> & H) | (e & -> & ->)].
      * apply IH in H as [(a & t1 & t2 & H1 & H2 & ->) | (e & H1 & ->)].
        -- left. exists a, (Ev c (Ok x) :: t1), t2. repeat split; [|exact H2].
           left. exists x, t1. split; [reflexivity | exact H1].
        -- right. exists e. split; [|reflexivity].
           left. exists x, t'. split; [reflexivity | exact H1].
      * right. exists e. split; [|reflexivity].
        right. exists e. split; reflexivity.
    + intros [(a & t1 & t2 & H1 & H2 & ->) | (e & H1 & ->)].
      * destruct H1 as [(x & t' & -> & H1) | (e & _ & He)]; [|discriminate He].
        left. exists x, (t' ++ t2). split; [reflexivity|].
        apply IH. left. exists a, t', t2. repeat split; assumption.
      * destruct H1 as [(x & t' & -> & H1) | (e' & -> & He)].
        -- left. exists x, t'. split; [reflexivity|].
           apply IH. right. exists e. split; [exact H1 | reflexivity].
        -- right. exists e'. split; [reflexivity|].
           injection He as <-. reflexivity.
Qed.

(** [int] on literals at the edges of what Python accepts: digits and
    white space of other scripts count, the separators 28 to 31 do not,
    and a literal of more than 4300 digits is refused. *)
Example int_literals :
  Py.int " 42 " = Some 42 /\
  Py.int "-1_000" = Some (-1000) /\
  Py.int "٣" = Some 3 /\
  Py.int "٣٣٠٦" = Some 3306 /\
  Py.int " 7" = Some 7 /\
  Py.int (String (ascii_of_nat 28) "6") = None /\
  Py.int "1__0" = None /\
  Py.int "+ 1" = None /\
  Py.int "" = None /\
  Py.int (string_of_list_ascii (repeat "0"%char 4300)) = Some 0 /\
  Py.int (string_of_list_ascii (repeat "0"%char 4301)) = None.
Proof. vm_compute. repeat split. Qed.

(** ** Proof automation for executions *)

(** Split one call of an execution into its two ways to end. *)
(** Use an equation on the outcome or the trace of an execution. *)
Ltac use_eq H :=
  first [ discriminate H | try (injection H; clear H; intros); try subst ].

Ltac exec_split H :=
  let x := fresh "x" in
  let t' := fresh "t" in
  let e := fresh "e" in
  let Ho := fresh "Ho" in
  destruct H as [(x & t' & -> & H) | (e & -> & Ho)]; [ | use_eq Ho ].

Ltac unfold_py H :=
  unfold mbind, prog_bind, subscript, py_int, py_add, unpack2, unpack4 in H.

(** Follow an execution of a straight-line program to each of its ends. *)
Ltac exec_inv H :=
  cbn in H;
  lazymatch type of H with
  | _ \/ _ => exec_split H; [exec_inv H | .. ]
  | _ /\ _ =>
      let Ht := fresh "Ht" in
      let Ho := fresh "Ho" in
      destruct H as [Ht Ho]; use_eq Ht; use_eq Ho
  | exec (if ?b then _ else _) _ _ => destruct b eqn:?; exec_inv H
  | exec (match ?x with _ => _ end) _ _ => destruct x eqn:?; exec_inv H
  | exec (bind (match ?x with _ => _ end) _) _ _ => destruct x eqn:?; exec_inv H
  | exec _ _ _ => first [ progress (unfold_py H); exec_inv H | idtac ]
  | _ => idtac
  end.

(** Use an equation between two events: different calls refute it, equal
    calls give their arguments and results. *)
Ltac ev_eq H :=
  let Hc := fresh "Hc" in
  pose proof (Ev_inj_call _ _ _ _ H) as Hc;
  first
    [ discriminate Hc
    | try (injection Hc; clear Hc; intros; subst);
      apply Ev_inj_result in H;
      first [ discriminate H | try (injection H; clear H; intros); subst ] ].

(** Case analysis on membership in an explicit trace. *)
Ltac in_inv H :=
  cbn in H;
  repeat (destruct H as [H | H]; [ev_eq H | ]);
  try contradiction.

(** Resolve the tests an execution went through. *)
Ltac tidy :=
  repeat match goal with
    | u : unit |- _ => destruct u
    | H : negb (truthy_str ?x) = _ |- _ =>
        destruct x as [[|? ?]|]; cbn in H; try discriminate H; clear H
    | H : truthy_str ?x = _ |- _ =>
        is_var x; destruct x as [[|? ?]|]; cbn in H; try discriminate H; clear H
    | H : negb ?b = _ |- _ =>
        is_var b; destruct b; cbn in H; try discriminate H; clear H
    end.

(** Close a case whose tests contradict each other. *)
Ltac contra :=
  solve [ match goal with
          | H : truthy_str _ = _ |- _ => cbn in H; discriminate H
          | H : truthy_row _ = _ |- _ => cbn in H; discriminate H
          | H : negb _ = _ |- _ => cbn in H; discriminate H
          end ].

(** ** The calls a program can make *)

Lemma calls_only_bind {A B : Type} (P : call -> bool) (p : prog A)
    (f : A -> prog B) :
  calls_only P p -> (forall a, calls_only P (f a)) -> calls_only P (bind p f).
Proof.
  intros Hp Hf. induction p as [a | e | c k IH]; simpl.
  - apply Hf.
  - exact I.
  - destruct Hp as [Hc Hk]. split; [exact Hc|]. intros x. apply IH, Hk.
Qed.

Lemma calls_only_for_each {A : Type} (P : call -> bool) (l : list A)
    (body : A -> prog unit) :
  (forall x, calls_only P (body x)) -> calls_only P (for_each l body).
Proof.
  intros Hb. induction l as [| x rest IH]; simpl; [exact I|].
  apply calls_only_bind; [apply Hb | intros _; exact IH].
Qed.

Lemma calls_only_weaken {A : Type} (P Q : call -> bool) (p : prog A) :
  (forall c, P c = true -> Q c = true) -> calls_only P p -> calls_only Q p.
Proof.
  intros HPQ. induction p as [a | e | c k IH]; simpl; try (intros; exact I).
  intros [Hc Hk]. split; [apply HPQ, Hc | intros x; apply IH, Hk].
Qed.

(** The trace of an execution only has calls the program can make. *)
Lemma exec_calls_only {A : Type} (P : call -> bool) (p : prog A) (t : trace)
    (o : outcome A) :
  calls_only P p -> exec p t o -> forallb (fun e => P (call_of e)) t = true.
Proof.
  revert t. induction p as [a | e | c k IH]; intros t Hp; simpl.
  - intros [-> _]. reflexivity.
  - intros [-> _]. reflexivity.
  - destruct Hp as [Hc Hk].
    intros [(x & t' & -> & H) | (e & -> & _)]; simpl; rewrite Hc; simpl.
    + eapply IH; [apply Hk | exact H].
    + reflexivity.
Qed.

(** Prove a footprint by walking through the program. *)
Ltac footprint :=
  cbn;
  repeat lazymatch goal with
    | |- _ /\ _ => split
    | |- forall _, _ => intro
    | |- True => exact I
    | |- _ = _ => reflexivity
    | |- calls_only _ (if ?b then _ else _) => destruct b; cbn
    | |- calls_only _ (match ?x with _ => _ end) => destruct x; cbn
    | |- calls_only _ (for_each _ _) => apply calls_only_for_each; cbn
    | |- calls_only _ (bind _ _) => apply calls_only_bind; cbn
    | |- calls_only _ (mbind _ _) => apply calls_only_bind; cbn
    | |- calls_only _ (subscript _ _) => unfold subscript; cbn
    | |- calls_only _ (py_int _) => unfold py_int; cbn
    | |- calls_only _ (py_add _ _) => unfold py_add; cbn
    | |- calls_only _ (unpack2 _) => unfold unpack2; cbn
    | |- calls_only _ (unpack4 _) => unfold unpack4; cbn
    end.

Lemma prompt_console : calls_only is_console prompt.
Proof. unfold prompt. footprint. Qed.

Section SessionFootprint.
Variables (bucketname : string) (bucket : s3_bucket) (endpoint : string)
          (dbConn : conn).

Lemma dispatch_not_startup (cmd : Z) :
  calls_only not_startup (dispatch bucketname bucket endpoint dbConn cmd).
Proof.
  unfold dispatch, stats, users, assets, download, upload, add_user.
  repeat match goal with |- context [if ?b then _ else _] =>
    lazymatch b with (_ =? _) => destruct b end end; footprint.
Qed.

(** One round of the loop: read a command, test it, run the body. *)
Lemma command_loop_S (fuel : nat) :
  command_loop bucketname bucket endpoint dbConn (S fuel) =
  bind prompt (fun cmd =>
    if cmd =? 0 then Ret TERMINATED
    else bind (dispatch bucketname bucket endpoint dbConn cmd)
              (fun _ => command_loop bucketname bucket endpoint dbConn fuel)).
Proof. reflexivity. Qed.

Lemma command_loop_not_startup (fuel : nat) :
  calls_only not_startup (command_loop bucketname bucket endpoint dbConn fuel).
Proof.
  induction fuel as [| fuel IH]; [exact I|].
  rewrite command_loop_S.
  apply calls_only_bind.
  - apply (calls_only_weaken is_console); [|apply prompt_console].
    intros [] H; try discriminate H; reflexivity.
  - intros cmd. destruct (cmd =? 0); [exact I|].
    apply calls_only_bind; [apply dispatch_not_startup | intros _; exact IH].
Qed.
End SessionFootprint.

(** No event of an execution is a call the program cannot make. *)
Lemma exec_in_calls_only {A : Type} (P : call -> bool) (p : prog A) (t : trace)
    (o : outcome A) (e : event) :
  calls_only P p -> exec p t o -> In e t -> P (call_of e) = true.
Proof.
  intros Hp Hex Hin.
  pose proof (exec_calls_only P p t o Hp Hex) as Hall.
  rewrite forallb_forall in Hall. apply Hall, Hin.
Qed.

(** The code after the loop only prints. *)
Lemma after_loop_not_startup (bucketname : string) (bucket : s3_bucket)
    (endpoint : string) (dbConn : conn) (fuel : nat)
    (k : loop_state -> prog loop_state) :
  (forall st, calls_only not_startup (k st)) ->
  calls_only not_startup
    (bind (command_loop bucketname bucket endpoint dbConn fuel) k).
Proof.
  intros Hk. apply calls_only_bind; [apply command_loop_not_startup | exact Hk].
Qed.

(** ** The reference environment keeps asset rows backed by blobs *)

Ltac break_match :=
  repeat match goal with
    | |- context [match ?x with _ => _ end] => destruct x eqn:?
    end.

(** Every call except the insert of an asset row keeps the invariant:
    the bucket only grows and the assets table is untouched. *)
Lemma env_backed (c : call) (w : Model.world) :
  not_asset_insert c = true -> Model.backed w -> Model.backed (snd (Model.env c w)).
Proof.
  intros Hc Hw. unfold not_asset_insert, is_asset_insert in Hc.
  destruct c; cbn;
    unfold Model.backed, Model.perform_action, Model.upload_file,
      Model.download_file in *;
    try (apply negb_true_iff in Hc; rewrite Hc);
    break_match; cbn; try exact Hw.
  intros a Ha. apply lookup_insert_is_Some'. right. apply Hw, Ha.
Qed.

(** The bucket only grows. *)
Lemma env_blobs_mono (c : call) (w : Model.world) (k : string) :
  is_Some (Model.blobs w !! k) -> is_Some (Model.blobs (snd (Model.env c w)) !! k).
Proof.
  intros Hk.
  destruct c; cbn;
    unfold Model.perform_action, Model.upload_file, Model.download_file;
    break_match; cbn; try exact Hk.
  apply lookup_insert_is_Some'. right. exact Hk.
Qed.

(** A successful upload leaves a blob under the key it returns. *)
Lemma env_upload_ok (local : string) (b : s3_bucket) (key : string)
    (w w1 : Model.world) (s3_key : option string) :
  Model.env (UploadFile local b key) w = (Ok s3_key, w1) ->
  truthy_str s3_key = true ->
  s3_key = Some key /\ is_Some (Model.blobs w1 !! key).
Proof.
  cbn. unfold Model.upload_file. destruct (Model.disk w !! local) as [content|].
  - intros E _. injection E as <- <-. split; [reflexivity|].
    cbn. apply lookup_insert_is_Some'. left. reflexivity.
  - intros E H. injection E as <- <-. discriminate H.
Qed.

(** Inserting an asset row whose key names a blob keeps the invariant. *)
Lemma env_insert_backed (c : conn) (uid name key : string) (w : Model.world) :
  Model.backed w -> is_Some (Model.blobs w !! key) ->
  Model.backed
    (snd (Model.env (PerformAction c insert_asset_query
                       [VStr uid; VStr name; VStr key]) w)).
Proof.
  intros Hw Hk. cbn. unfold Model.perform_action. cbn.
  destruct (Model.find_user uid (Model.users_tbl w)) as [u|]; cbn; [|exact Hw].
  intros a [<- | Ha]; cbn; [exact Hk | apply Hw, Ha].
Qed.

(** One call that is not the asset insert, then the rest. *)
Lemma backed_step {B : Type} (c : call) (f : answer c -> prog B)
    (w : Model.world) :
  not_asset_insert c = true ->
  Model.backed w ->
  (forall x w1,
     Model.env c w = (Ok x, w1) -> Model.backed w1 ->
     (forall k, is_Some (Model.blobs w !! k) -> is_Some (Model.blobs w1 !! k)) ->
     Model.backed (world_of (run Model.env (f x) w1))) ->
  Model.backed (world_of (run Model.env (bind (perform c) f) w)).
Proof.
  intros Hc Hw Hk. rewrite world_of_perform.
  pose proof (env_backed c w Hc Hw) as H1.
  pose proof (env_blobs_mono c w) as H2.
  destruct (Model.env c w) as [[x | e] w1]; cbn in H1, H2; [|exact H1].
  apply Hk; [reflexivity | exact H1 | exact H2].
Qed.

(** The commands other than upload never insert an asset row. *)
Lemma tail_of_upload_no_insert (dbConn : conn) (res : Z) :
  calls_only not_asset_insert
    (if res <=? 0
     then print [VStr "Failed to insert asset info into the database."]
     else
       last_id ← perform (RetrieveOneRow dbConn last_id_query []);
       new_id ← subscript last_id 0;
       print [VStr "Recorded in RDS under asset id "; new_id]).
Proof. footprint. Qed.

(** One call of a program run in the reference environment. *)
Ltac bstep Hw :=
  unfold mbind, prog_bind, print, input; cbv beta;
  apply backed_step; [reflexivity | exact Hw | ].

Ltac bfin Hw :=
  apply (run_preserves Model.env Model.backed not_asset_insert);
  [exact env_backed | footprint | exact Hw].

Lemma upload_backed (dbConn : conn) (bucket : s3_bucket) (w : Model.world) :
  Model.backed w ->
  Model.backed (world_of (run Model.env (upload dbConn bucket) w)).
Proof.
  intros Hw0. unfold upload.
  bstep Hw0. intros _ w1 _ Hw1 _.
  bstep Hw1. intros local w2 _ Hw2 _.
  bstep Hw2. intros found w3 _ Hw3 _.
  destruct found; cbn [negb]; [|bfin Hw3].
  bstep Hw3. intros _ w4 _ Hw4 _.
  bstep Hw4. intros uid w5 _ Hw5 _.
  bstep Hw5. intros user_row w6 _ Hw6 _.
  destruct (truthy_row user_row); cbn [negb]; [|bfin Hw6].
  bstep Hw6. intros fresh w7 _ Hw7 _.
  bstep Hw7. intros s3_key w8 E Hw8 _.
  destruct (truthy_str s3_key) eqn:T; cbn [negb]; [|bfin Hw8].
  apply env_upload_ok in E as [-> Hkey]; [|exact T].
  bstep Hw8. intros _ w9 _ Hw9 Hm. cbn [default].
  unfold mbind, prog_bind; cbv beta.
  rewrite (world_of_perform Model.env
             (PerformAction dbConn insert_asset_query
                [VStr uid; VStr local; VStr (fresh +:+ suffix local)])).
  pose proof (env_insert_backed dbConn uid local _ w9 Hw9 (Hm _ Hkey)) as Hins.
  destruct (Model.env _ w9) as [[res | e] w10]; cbn in Hins; [|exact Hins].
  apply (run_preserves Model.env Model.backed not_asset_insert);
    [exact env_backed | apply tail_of_upload_no_insert | exact Hins].
Qed.

Section SessionBacked.
Variables (bucketname : string) (bucket : s3_bucket) (endpoint : string)
          (dbConn : conn).

Lemma dispatch_backed (cmd : Z) (w : Model.world) :
  Model.backed w ->
  Model.backed
    (world_of (run Model.env (dispatch bucketname bucket endpoint dbConn cmd) w)).
Proof.
  intros Hw. unfold dispatch.
  repeat match goal with |- context [if ?b then _ else _] =>
    lazymatch b with (_ =? _) => destruct b end end;
    try (apply upload_backed; exact Hw);
    unfold stats, users, assets, download, add_user; bfin Hw.
Qed.

Lemma command_loop_backed (fuel : nat) (w : Model.world) :
  Model.backed w ->
  Model.backed
    (world_of (run Model.env
                 (command_loop bucketname bucket endpoint dbConn fuel) w)).
Proof.
  revert w. induction fuel as [| fuel IH]; intros w Hw; [exact Hw|].
  rewrite command_loop_S, world_of_bind.
  assert (Hp : Model.backed (world_of (run Model.env prompt w))).
  { unfold prompt. bfin Hw. }
  destruct (outcome_of (run Model.env prompt w)) as [cmd | e]; [|exact Hp].
  revert Hp. generalize (world_of (run Model.env prompt w)). intros w1 Hp.
  destruct (cmd =? 0); [exact Hp|].
  rewrite world_of_bind.
  pose proof (dispatch_backed cmd _ Hp) as Hd.
  destruct (outcome_of (run Model.env (dispatch _ _ _ _ cmd) w1)); [|exact Hd].
  revert Hd. generalize (world_of (run Model.env (dispatch bucketname bucket endpoint dbConn cmd) w1)).
  intros w2 Hd. apply IH, Hd.
Qed.
End SessionBacked.

(** ** Upload *)

(** C3.  An upload whose local path does not exist prints the
    file-missing message and returns.  The whole trace is: the prompt for
    the file name, the line read, the failed existence test, the message.
    So there is no call to the object store, no call to the database and
    no second read from the console (the user identifier is never asked
    for). *)
Theorem upload_missing_file (dbConn : conn) (bucket : s3_bucket) (t : trace)
    (o : outcome unit) (p : string) :
  exec (upload dbConn bucket) t o ->
  In (Ev (PathExists p) (Ok false)) t ->
  exists r,
    t = [Ev (Print "Enter local filename>") (Ok tt); Ev Input (Ok p);
         Ev (PathExists p) (Ok false);
         Ev (Print ("Local file ' " +:+ p +:+ " ' does not exist...")) r]
    /\ o = match r with Ok _ => Returned tt | Err e => Raised e end
    /\ existsb is_gateway_call t = false
    /\ length (List.filter is_input t) = 1%nat.
Proof.
  intros Hex Hin. unfold upload in Hex.
  exec_inv Hex; in_inv Hin; try discriminate;
    repeat match goal with u : unit |- _ => destruct u end;
    eexists; repeat split; reflexivity.
Qed.

Lemma upload_missing_file_witness :
  let r := run Model.env (upload 1 "photoapp-bucket")
               (Model.initial ["/no/such/file.jpg"] [] [] [] true) in
  In (Ev (PathExists "/no/such/file.jpg") (Ok false)) (trace_of r) /\
  exists m,
    trace_of r =
      [Ev (Print "Enter local filename>") (Ok tt);
       Ev Input (Ok "/no/such/file.jpg");
       Ev (PathExists "/no/such/file.jpg") (Ok false);
       Ev (Print "Local file ' /no/such/file.jpg ' does not exist...") m]
    /\ outcome_of r = match m with Ok _ => Returned tt | Err e => Raised e end
    /\ existsb is_gateway_call (trace_of r) = false
    /\ length (List.filter is_input (trace_of r)) = 1%nat.
Proof.
  intros r.
  assert (Hin : In (Ev (PathExists "/no/such/file.jpg") (Ok false)) (trace_of r)).
  { vm_compute. right. right. left. reflexivity. }
  split; [exact Hin|].
  exact (upload_missing_file 1 "photoapp-bucket" (trace_of r) (outcome_of r)
           "/no/such/file.jpg" (run_is_exec Model.env _ _) Hin).
Defined.

Lemma upload_insert_shape (dbConn : conn) (bucket : s3_bucket) (t : trace)
    (o : outcome unit) :
  exec (upload dbConn bucket) t o ->
  forall c sql ps r, In (Ev (PerformAction c sql ps) r) t ->
     exists local uid found fresh key rest,
       t = [Ev (Print "Enter local filename>") (Ok tt); Ev Input (Ok local);
            Ev (PathExists local) (Ok true);
            Ev (Print "Enter user id>") (Ok tt); Ev Input (Ok uid);
            Ev (RetrieveOneRow dbConn check_user_query [VStr uid]) (Ok found);
            Ev Uuid4 (Ok fresh);
            Ev (UploadFile local bucket (fresh +:+ suffix local)) (Ok (Some key));
            Ev (Print ("Uploaded and stored in S3 as ' " +:+ key +:+ " '")) (Ok tt);
            Ev (PerformAction dbConn insert_asset_query
                  [VStr uid; VStr local; VStr key]) r] ++ rest
       /\ key <> "" /\ existsb is_db_write rest = false.
Proof.
  intros Hex c sql ps r Hin. unfold upload in Hex.
  exec_inv Hex; in_inv Hin; tidy;
    do 6 eexists; (split; [reflexivity|]); (split; [discriminate | reflexivity]).
Qed.

Lemma upload_failed_no_write (dbConn : conn) (bucket : s3_bucket) (t : trace)
    (o : outcome unit) :
  exec (upload dbConn bucket) t o ->
  forall local b key s3_key, In (Ev (UploadFile local b key) (Ok s3_key)) t ->
     truthy_str s3_key = false ->
     existsb is_db_write t = false /\
     exists pre r,
       t = pre ++ [Ev (Print "Failed to upload the file to S3.") r]
       /\ o = match r with Ok _ => Returned tt | Err e => Raised e end.
Proof.
  intros Hex local b key s3 Hin Hs. unfold upload in Hex.
  exec_inv Hex; in_inv Hin; tidy; try discriminate;
    (split; [reflexivity | eexists [_; _; _; _; _; _; _; _], _; split; reflexivity]).
Qed.

Lemma upload_raised_no_write (dbConn : conn) (bucket : s3_bucket) (t : trace)
    (o : outcome unit) :
  exec (upload dbConn bucket) t o ->
  forall local b key e, In (Ev (UploadFile local b key) (Err e)) t ->
     existsb is_db_write t = false /\ o = Raised e.
Proof.
  intros Hex local b key e Hin. unfold upload in Hex.
  exec_inv Hex; in_inv Hin; tidy; split; reflexivity.
Qed.





(** C1.  In every execution of upload that reaches the database insert,
    the trace begins: file name read, file found, user looked up, key
    generated, blob uploaded with success, upload reported, row inserted
    with the key the store returned.  The upload is the eighth call and
    the insert the tenth, and no other database write follows.  When the
    store reports a failed upload the command prints the failure message
    and ends without any database write; when the upload raises, the
    command ends there, again without a database write.  In the reference
    environment the command loop therefore keeps every asset row backed by
    a blob, at whatever point a run ends. *)
Theorem upload_blob_before_row (dbConn : conn) (bucket : s3_bucket) (t : trace)
    (o : outcome unit) :
  exec (upload dbConn bucket) t o ->
  (forall c sql ps r, In (Ev (PerformAction c sql ps) r) t ->
     exists local uid found fresh key rest,
       t = [Ev (Print "Enter local filename>") (Ok tt); Ev Input (Ok local);
            Ev (PathExists local) (Ok true);
            Ev (Print "Enter user id>") (Ok tt); Ev Input (Ok uid);
            Ev (RetrieveOneRow dbConn check_user_query [VStr uid]) (Ok found);
            Ev Uuid4 (Ok fresh);
            Ev (UploadFile local bucket (fresh +:+ suffix local)) (Ok (Some key));
            Ev (Print ("Uploaded and stored in S3 as ' " +:+ key +:+ " '")) (Ok tt);
            Ev (PerformAction dbConn insert_asset_query
                  [VStr uid; VStr local; VStr key]) r] ++ rest
       /\ key <> "" /\ existsb is_db_write rest = false) /\
  (forall local b key s3_key, In (Ev (UploadFile local b key) (Ok s3_key)) t ->
     truthy_str s3_key = false ->
     existsb is_db_write t = false /\
     exists pre r,
       t = pre ++ [Ev (Print "Failed to upload the file to S3.") r]
       /\ o = match r with Ok _ => Returned tt | Err e => Raised e end) /\
  (forall local b key e, In (Ev (UploadFile local b key) (Err e)) t ->
     existsb is_db_write t = false /\ o = Raised e) /\
  (forall bucketname endpoint fuel w, Model.backed w ->
     Model.backed
       (world_of (run Model.env
                    (command_loop bucketname bucket endpoint dbConn fuel) w))).
Proof.
  intros Hex. repeat split.
  - intros c sql ps r Hin. eapply upload_insert_shape; eassumption.
  - eapply upload_failed_no_write; eassumption.
  - eapply upload_failed_no_write; eassumption.
  - eapply upload_raised_no_write; eassumption.
  - eapply upload_raised_no_write; eassumption.
  - intros. apply command_loop_backed. assumption.
Qed.

Lemma upload_blob_before_row_witness :
  let r := run Model.env (upload 1 "photoapp-bucket")
               (Model.initial ["cat.jpg"; "1"] ["k-2"] [("cat.jpg", "JPEG")]
                  [Model.User 1 "a@b.com" "Smith" "Jane" "f-1"] true) in
  exec (upload 1 "photoapp-bucket") (trace_of r) (outcome_of r) /\
  In (Ev (PerformAction 1 insert_asset_query
            [VStr "1"; VStr "cat.jpg"; VStr "k-2.jpg"]) (Ok 1)) (trace_of r) /\
  exists local uid found fresh key rest,
    trace_of r =
      [Ev (Print "Enter local filename>") (Ok tt); Ev Input (Ok local);
       Ev (PathExists local) (Ok true);
       Ev (Print "Enter user id>") (Ok tt); Ev Input (Ok uid);
       Ev (RetrieveOneRow 1 check_user_query [VStr uid]) (Ok found);
       Ev Uuid4 (Ok fresh);
       Ev (UploadFile local "photoapp-bucket" (fresh +:+ suffix local))
          (Ok (Some key));
       Ev (Print ("Uploaded and stored in S3 as ' " +:+ key +:+ " '")) (Ok tt);
       Ev (PerformAction 1 insert_asset_query
             [VStr uid; VStr local; VStr key]) (Ok 1)] ++ rest
    /\ key <> "" /\ existsb is_db_write rest = false.
Proof.
  intros r.
  assert (Hex : exec (upload 1 "photoapp-bucket") (trace_of r) (outcome_of r))
    by exact (run_is_exec Model.env _ _).
  assert (Hin : In (Ev (PerformAction 1 insert_asset_query
                          [VStr "1"; VStr "cat.jpg"; VStr "k-2.jpg"]) (Ok 1))
                   (trace_of r)).
  { vm_compute. do 9 right. left. reflexivity. }
  split; [exact Hex|]. split; [exact Hin|].
  exact (proj1 (upload_blob_before_row 1 "photoapp-bucket" _ _ Hex) _ _ _ _ Hin).
Defined.

(** ** Download *)

(** The shape of a download that finds no row. *)
Lemma download_no_such_asset_trace (dbConn : conn) (bucket : s3_bucket)
    (display : bool) (t : trace) (o : outcome unit) (c : conn) (sql : string)
    (params : list value) (found : option row) :
  exec (download dbConn bucket display) t o ->
  In (Ev (RetrieveOneRow c sql params) (Ok found)) t ->
  truthy_row found = false ->
  exists asset_id r,
    t = [Ev (Print "Enter asset id>") (Ok tt); Ev Input (Ok asset_id);
         Ev (RetrieveOneRow dbConn file_info_query [VStr asset_id]) (Ok found);
         Ev (Print "No such asset...") r]
    /\ o = match r with Ok _ => Returned tt | Err e => Raised e end.
Proof.
  intros Hex Hin Hf. unfold download in Hex.
  exec_inv Hex; in_inv Hin; tidy;
    try (cbn in Hf; discriminate Hf);
    try match goal with H : truthy_row ?x = true |- _ =>
      rewrite H in Hf; discriminate Hf end;
    do 2 eexists; repeat split; reflexivity.
Qed.

(** C4.  A download whose row lookup comes back empty ([None] or the
    empty tuple: no row with that identifier) prints "No such asset..."
    and ends.  The whole trace is the prompt, the line read, the lookup
    and the message: no call to the object store and no write to the
    local file system. *)
Theorem download_no_such_asset (dbConn : conn) (bucket : s3_bucket)
    (display : bool) (t : trace) (o : outcome unit) (c : conn) (sql : string)
    (params : list value) (found : option row) :
  exec (download dbConn bucket display) t o ->
  In (Ev (RetrieveOneRow c sql params) (Ok found)) t ->
  truthy_row found = false ->
  exists asset_id r,
    t = [Ev (Print "Enter asset id>") (Ok tt); Ev Input (Ok asset_id);
         Ev (RetrieveOneRow dbConn file_info_query [VStr asset_id]) (Ok found);
         Ev (Print "No such asset...") r]
    /\ o = match r with Ok _ => Returned tt | Err e => Raised e end
    /\ existsb is_store_call t = false
    /\ existsb is_file_write t = false.
Proof.
  intros Hex Hin Hf.
  destruct (download_no_such_asset_trace _ _ _ _ _ _ _ _ _ Hex Hin Hf)
    as (a & r & -> & ->).
  exists a, r. repeat split; reflexivity.
Qed.

Lemma download_no_such_asset_witness :
  let r := run Model.env (download 1 "photoapp-bucket" false)
               (Model.initial ["99999999"] [] [] [] true) in
  In (Ev (RetrieveOneRow 1 file_info_query [VStr "99999999"]) (Ok (Some [])))
     (trace_of r) /\
  exists asset_id m,
    trace_of r =
      [Ev (Print "Enter asset id>") (Ok tt); Ev Input (Ok asset_id);
       Ev (RetrieveOneRow 1 file_info_query [VStr asset_id]) (Ok (Some []));
       Ev (Print "No such asset...") m]
    /\ outcome_of r = match m with Ok _ => Returned tt | Err e => Raised e end
    /\ existsb is_store_call (trace_of r) = false
    /\ existsb is_file_write (trace_of r) = false.
Proof.
  intros r.
  assert (Hin : In (Ev (RetrieveOneRow 1 file_info_query [VStr "99999999"])
                       (Ok (Some []))) (trace_of r)).
  { vm_compute. do 2 right. left. reflexivity. }
  split; [exact Hin|].
  exact (download_no_such_asset 1 "photoapp-bucket" false _ _ _ _ _ _
           (run_is_exec Model.env _ _) Hin eq_refl).
Defined.

(** C5.  A download in which the row is found but the store reports a
    failed blob download writes exactly the console lines of a download
    in which no row is found: the prompt and "No such asset...". *)
Theorem download_failure_same_message (dbConn : conn) (bucket : s3_bucket)
    (display1 display2 : bool) (t1 t2 : trace) (o1 o2 : outcome unit)
    (c1 c2 : conn) (sql1 sql2 : string) (params1 params2 : list value)
    (row1 row2 : option row) (b : s3_bucket) (key name : value)
    (saved : option string) :
  exec (download dbConn bucket display1) t1 o1 ->
  In (Ev (RetrieveOneRow c1 sql1 params1) (Ok row1)) t1 ->
  truthy_row row1 = true ->
  In (Ev (DownloadFile b key name) (Ok saved)) t1 ->
  truthy_str saved = false ->
  exec (download dbConn bucket display2) t2 o2 ->
  In (Ev (RetrieveOneRow c2 sql2 params2) (Ok row2)) t2 ->
  truthy_row row2 = false ->
  printed t1 = ["Enter asset id>"; "No such asset..."] /\
  printed t2 = ["Enter asset id>"; "No such asset..."].
Proof.
  intros Hex1 Hrow1 Ht1 Hdl Hs Hex2 Hrow2 Ht2. split.
  - clear Hex2 Hrow2 Ht2. unfold download in Hex1.
    exec_inv Hex1; in_inv Hdl; tidy; try contra; reflexivity.
  - destruct (download_no_such_asset_trace _ _ _ _ _ _ _ _ _ Hex2 Hrow2 Ht2)
      as (a & r & -> & _).
    reflexivity.
Qed.

Lemma download_failure_same_message_witness :
  let w1 := Model.add_asset_row (Model.initial ["1"] [] [] [] true)
              (Model.Asset 1 1 "cat.jpg" "gone.jpg") in
  let w2 := Model.initial ["99999999"] [] [] [] true in
  let r1 := run Model.env (download 1 "photoapp-bucket" false) w1 in
  let r2 := run Model.env (download 1 "photoapp-bucket" true) w2 in
  printed (trace_of r1) = ["Enter asset id>"; "No such asset..."] /\
  printed (trace_of r2) = ["Enter asset id>"; "No such asset..."].
Proof.
  intros w1 w2 r1 r2.
  refine (download_failure_same_message 1 "photoapp-bucket" false true
            (trace_of r1) (trace_of r2) (outcome_of r1) (outcome_of r2)
            1 1 file_info_query file_info_query [VStr "1"] [VStr "99999999"]
            (Some [VStr "gone.jpg"; VStr "cat.jpg"]) (Some [])
            "photoapp-bucket" (VStr "gone.jpg") (VStr "cat.jpg") None
            (run_is_exec Model.env _ _) _ eq_refl _ eq_refl
            (run_is_exec Model.env _ _) _ eq_refl).
  - vm_compute. do 2 right. left. reflexivity.
  - vm_compute. do 3 right. left. reflexivity.
  - vm_compute. do 2 right. left. reflexivity.
Defined.

(** The loop and what follows it make no start-up call, so a start-up
    event cannot occur in their execution. *)
Ltac in_loop Hex Hin :=
  exfalso;
  lazymatch type of Hex with
  | exec ?p _ _ =>
      let Hp := fresh "Hp" in
      let H := fresh "H" in
      assert (Hp : calls_only not_startup p)
        by (apply after_loop_not_startup; intros []; footprint);
      pose proof (exec_in_calls_only _ _ _ _ _ Hp Hex Hin) as H;
      cbn in H; discriminate H
  end.

(** Split an explicit trace into its last event and what is before. *)
Ltac pick_prefix :=
  lazymatch goal with
  | |- exists pre r, ?L = _ /\ _ => exists (removelast L)
  end.

Lemma main_config_missing (fuel : nat) (t : trace) (o : outcome loop_state)
    (f : string) :
  exec (main fuel) t o ->
  In (Ev (IsFile f) (Ok false)) t ->
  exists pre r,
    t = pre ++ [Ev (Print ("**ERROR: config file ' " +:+ f +:+
                           " ' does not exist, exiting")) r]
    /\ match r with
       | Ok _ => o = Raised (SystemExit 0) /\ exit_status o = 0
       | Err e => o = Raised e
       end.
Proof.
  intros Hex Hin. unfold main in Hex.
  exec_inv Hex; in_inv Hin; tidy; try contra; try (in_loop Hex Hin);
    pick_prefix; eexists; (split; [reflexivity|]);
    try reflexivity; split; reflexivity.
Qed.

Lemma main_db_unreachable (fuel : nat) (t : trace) (o : outcome loop_state)
    (endpoint : string) (port : Z) (user pwd db : string) :
  exec (main fuel) t o ->
  In (Ev (GetDbConn endpoint port user pwd db) (Ok None)) t ->
  exists pre r,
    t = pre ++ [Ev (Print "**ERROR: unable to connect to database, exiting") r]
    /\ match r with
       | Ok _ => o = Raised (SystemExit 0) /\ exit_status o = 0
       | Err e => o = Raised e
       end.
Proof.
  intros Hex Hin. unfold main in Hex.
  exec_inv Hex; in_inv Hin; tidy; try contra; try (in_loop Hex Hin);
    pick_prefix; eexists; (split; [reflexivity|]);
    try reflexivity; split; reflexivity.
Qed.

(** C10.  When the named config file does not exist, or the database
    connection cannot be opened, the last thing the program does is print
    the error message; it then leaves through [sys.exit(0)], so the exit
    status of the process is 0. *)
Theorem startup_failure_exits_zero (fuel : nat) (t : trace)
    (o : outcome loop_state) :
  exec (main fuel) t o ->
  (forall f, In (Ev (IsFile f) (Ok false)) t ->
     exists pre r,
       t = pre ++ [Ev (Print ("**ERROR: config file ' " +:+ f +:+
                              " ' does not exist, exiting")) r]
       /\ match r with
          | Ok _ => o = Raised (SystemExit 0) /\ exit_status o = 0
          | Err e => o = Raised e
          end) /\
  (forall endpoint port user pwd db,
     In (Ev (GetDbConn endpoint port user pwd db) (Ok None)) t ->
     exists pre r,
       t = pre ++ [Ev (Print "**ERROR: unable to connect to database, exiting") r]
       /\ match r with
          | Ok _ => o = Raised (SystemExit 0) /\ exit_status o = 0
          | Err e => o = Raised e
          end).
Proof.
  intros Hex. split.
  - intros f Hin. eapply main_config_missing; eassumption.
  - intros endpoint port user pwd db Hin.
    eapply main_db_unreachable; eassumption.
Qed.

Lemma startup_failure_exits_zero_witness :
  let r1 := run Model.env (main 3) (Model.initial ["nope.ini"] [] [] [] true) in
  let r2 := run Model.env (main 3)
              (Model.initial [""] [] [("photoapp-config.ini", "")] [] false) in
  (In (Ev (IsFile "nope.ini") (Ok false)) (trace_of r1) /\
   exists pre r,
     trace_of r1 =
       pre ++ [Ev (Print "**ERROR: config file ' nope.ini ' does not exist, exiting") r]
     /\ match r with
        | Ok _ => outcome_of r1 = Raised (SystemExit 0)
                  /\ exit_status (outcome_of r1) = 0
        | Err e => outcome_of r1 = Raised e
        end) /\
  (In (Ev (GetDbConn "db.example.org" 3306 "photoapp" "secret" "photoapp")
          (Ok None)) (trace_of r2) /\
   exists pre r,
     trace_of r2 =
       pre ++ [Ev (Print "**ERROR: unable to connect to database, exiting") r]
     /\ match r with
        | Ok _ => outcome_of r2 = Raised (SystemExit 0)
                  /\ exit_status (outcome_of r2) = 0
        | Err e => outcome_of r2 = Raised e
        end).
Proof.
  intros r1 r2.
  assert (H1 : In (Ev (IsFile "nope.ini") (Ok false)) (trace_of r1)).
  { vm_compute. do 6 right. left. reflexivity. }
  assert (H2 : In (Ev (GetDbConn "db.example.org" 3306 "photoapp" "secret"
                         "photoapp") (Ok None)) (trace_of r2)).
  { vm_compute. do 17 right. left. reflexivity. }
  split; (split; [assumption|]).
  - exact (proj1 (startup_failure_exits_zero 3 (trace_of r1) (outcome_of r1)
                    (run_is_exec Model.env _ _)) _ H1).
  - exact (proj2 (startup_failure_exits_zero 3 (trace_of r2) (outcome_of r2)
                    (run_is_exec Model.env _ _)) _ _ _ _ _ H2).
Defined.

(** ** The command loop *)

(** What [prompt] does when it returns a command: the last event is the
    line read, and the command is the number it reads as. *)
Lemma prompt_returns (t : trace) (cmd : Z) :
  exec prompt t (Returned cmd) ->
  exists pre s, t = pre ++ [Ev Input (Ok s)] /\ Py.int s = Some cmd.
Proof.
  intros Hex. unfold prompt in Hex.
  exec_inv Hex; tidy.
  eexists [_; _; _; _; _; _; _; _; _; _], _. split; [reflexivity | assumption].
Qed.

(** The last call of an explicit trace, and the events before it. *)
Ltac last_call l :=
  lazymatch l with
  | [Ev ?c _] => c
  | _ :: ?r => last_call r
  end.

Ltac front l :=
  lazymatch l with
  | [_] => constr:(@nil event)
  | ?x :: ?r => let f := front r in constr:(x :: f)
  end.

(** How [prompt] ends when it does not return a command: the line read
    is not a number, or one of its console calls raised. *)
Lemma prompt_raised (t : trace) (e : exn) :
  exec prompt t (Raised e) ->
  (exists pre s, t = pre ++ [Ev Input (Ok s)] /\ Py.int s = None /\
                 e = ValueError) \/
  (exists pre c, t = pre ++ [Ev c (Err e)] /\ is_console c = true).
Proof.
  intros Hex. unfold prompt in Hex.
  exec_inv Hex; tidy;
    first
      [ left; eexists [_; _; _; _; _; _; _; _; _; _], _;
        split; [reflexivity | split; [assumption | reflexivity]]
      | right;
        lazymatch goal with
        | |- exists pre c, ?l = _ /\ _ =>
            let c := last_call l in
            let f := front l in
            exists f, c; split; reflexivity
        end ].
Qed.

(** Every run of the loop that still has fuel starts with the first line
    of the menu. *)
Lemma command_loop_starts_with_menu {W : Type}
    (env : forall c : call, W -> result (answer c) * W)
    (bucketname : string) (bucket : s3_bucket) (endpoint : string) (dbConn : conn)
    (fuel : nat) (w : W) :
  exists r rest,
    trace_of (run env (command_loop bucketname bucket endpoint dbConn (S fuel)) w)
    = Ev (Print "") r :: rest.
Proof.
  exact (trace_of_Do env (Print "") _ w).
Qed.

Lemma trace_of_after {A W : Type} (t0 : trace) (r : outcome A * W * trace) :
  trace_of (after t0 r) = t0 ++ trace_of r.
Proof. destruct r as [[o w] t]. reflexivity. Qed.

Section Loop.
Context {W : Type}.
Variable env : forall c : call, W -> result (answer c) * W.
Variables (bucketname : string) (bucket : s3_bucket) (endpoint : string)
          (dbConn : conn).

#[local] Abbreviation loop := (command_loop bucketname bucket endpoint dbConn).
#[local] Abbreviation body := (dispatch bucketname bucket endpoint dbConn).
#[local] Abbreviation menu := (handler_of bucketname bucket endpoint dbConn).

(** The body of the loop runs the command the menu names. *)
Lemma dispatch_handler (cmd : Z) :
  1 <= cmd <= 7 -> menu cmd = Some (body cmd).
Proof.
  intros H.
  assert (Hc : cmd = 1 \/ cmd = 2 \/ cmd = 3 \/ cmd = 4 \/ cmd = 5 \/ cmd = 6
               \/ cmd = 7) by lia.
  repeat destruct Hc as [-> | Hc]; try subst cmd; reflexivity.
Qed.

Lemma dispatch_unknown (cmd : Z) :
  cmd < 0 \/ 7 < cmd ->
  menu cmd = None /\
  body cmd = print [VStr "** Unknown command, try again..."].
Proof.
  intros H. split.
  - destruct cmd as [| p | p]; try lia; [|reflexivity].
    do 3 (destruct p as [p | p |]; try lia; try reflexivity).
  - unfold dispatch.
    repeat match goal with |- context [?a =? ?b] =>
      destruct (Z.eqb_spec a b); [lia|] end.
    reflexivity.
Qed.

(** One round of the loop on a command other than 0 whose body returns. *)
Lemma loop_round (fuel : nat) (w w0 w1 : W) (t0 t1 : trace) (cmd : Z) :
  cmd <> 0 ->
  run env prompt w = (Returned cmd, w0, t0) ->
  run env (body cmd) w0 = (Returned tt, w1, t1) ->
  run env (loop (S fuel)) w = after (t0 ++ t1) (run env (loop fuel) w1).
Proof.
  intros Hc Hp Hb. rewrite command_loop_S, run_bind, Hp.
  destruct (Z.eqb_spec cmd 0) as [E | _]; [contradiction|].
  rewrite run_bind, Hb.
  destruct (run env (loop fuel) w1) as [[o w2] t2]. simpl.
  rewrite app_assoc. reflexivity.
Qed.

(** One round of the loop on a command other than 0, whatever the body
    does. *)
Lemma loop_dispatches (fuel : nat) (w w0 : W) (t0 : trace) (cmd : Z) :
  cmd <> 0 ->
  run env prompt w = (Returned cmd, w0, t0) ->
  run env (loop (S fuel)) w =
  after t0 (run env (bind (body cmd) (fun _ => loop fuel)) w0).
Proof.
  intros Hc Hp. rewrite command_loop_S, run_bind, Hp.
  destruct (Z.eqb_spec cmd 0) as [E | _]; [contradiction|].
  reflexivity.
Qed.

Lemma loop_exits (fuel : nat) (w w0 : W) (t0 : trace) :
  run env prompt w = (Returned 0, w0, t0) ->
  run env (loop (S fuel)) w = (Returned TERMINATED, w0, t0).
Proof.
  intros Hp. rewrite command_loop_S, run_bind, Hp. simpl.
  rewrite app_nil_r. reflexivity.
Qed.

Lemma loop_prompt_raises (fuel : nat) (w w0 : W) (t0 : trace) (e : exn) :
  run env prompt w = (Raised e, w0, t0) ->
  run env (loop (S fuel)) w = (Raised e, w0, t0).
Proof.
  intros Hp. rewrite command_loop_S, run_bind, Hp. reflexivity.
Qed.

(** A run of the loop that leaves through the loop test has read a
    command that stands for 0 as its last event. *)
Lemma loop_terminated_by_zero (fuel : nat) (w w' : W) (t : trace) :
  run env (loop fuel) w = (Returned TERMINATED, w', t) ->
  exists pre s, t = pre ++ [Ev Input (Ok s)] /\ Py.int s = Some 0.
Proof.
  revert w w' t. induction fuel as [| fuel IH]; intros w w' t Hr.
  - discriminate Hr.
  - rewrite command_loop_S, run_bind in Hr.
    destruct (run env prompt w) as [[[cmd | e] w0] t0] eqn:Hp; [|discriminate Hr].
    apply run_exec in Hp.
    destruct (Z.eqb_spec cmd 0) as [-> | Hc].
    + simpl in Hr. injection Hr as _ <-. rewrite app_nil_r.
      apply prompt_returns, Hp.
    + rewrite run_bind in Hr.
      destruct (run env (body cmd) w0) as [[[[] | e] w1] t1]; [|discriminate Hr].
      destruct (run env (loop fuel) w1) as [[o w2] t2] eqn:Hl.
      injection Hr as -> _ <-.
      apply IH in Hl as (pre & s & -> & Hs).
      exists (t0 ++ t1 ++ pre), s. split; [|exact Hs].
      rewrite <- !app_assoc. reflexivity.
Qed.
(** A run of the loop that ends with an exception ends where [prompt]
    raised or where the body of the loop raised on a command other than
    0: the loop itself catches nothing and raises nothing. *)
Lemma loop_raised (fuel : nat) (w w' : W) (t : trace) (e : exn) :
  run env (loop fuel) w = (Raised e, w', t) ->
  exists pre wp tp,
    t = pre ++ tp /\
    (run env prompt wp = (Raised e, w', tp) \/
     exists cmd, cmd <> 0 /\ run env (body cmd) wp = (Raised e, w', tp)).
Proof.
  revert w w' t. induction fuel as [| fuel IH]; intros w w' t Hr.
  - discriminate Hr.
  - rewrite command_loop_S, run_bind in Hr.
    destruct (run env prompt w) as [[[cmd | e0] w0] t0] eqn:Hp.
    + destruct (Z.eqb_spec cmd 0) as [-> | Hc]; [discriminate Hr|].
      rewrite run_bind in Hr.
      destruct (run env (body cmd) w0) as [[[[] | e1] w1] t1] eqn:Hb.
      * destruct (run env (loop fuel) w1) as [[o w2] t2] eqn:Hl.
        injection Hr as -> -> <-.
        apply IH in Hl as (pre & wp & tp & -> & H).
        exists (t0 ++ t1 ++ pre), wp, tp. split; [|exact H].
        rewrite <- !app_assoc. reflexivity.
      * injection Hr as -> -> <-.
        exists t0, w0, t1. split; [reflexivity|].
        right. exists cmd. split; [exact Hc | exact Hb].
    + injection Hr as -> -> <-.
      exists [], w, t0. split; [reflexivity|]. left. exact Hp.
Qed.
End Loop.

(** C6.  When a command code from 1 to 7 has been read, the loop runs the
    command the menu gives for that code; once that command has returned
    (whatever it printed or did), the loop goes on from the point where it
    awaits a command: with no fuel left it stops there in state
    AWAITING_COMMAND, and with fuel left the next call is the first line of
    the menu. *)
Theorem handler_returns_to_prompt {W : Type}
    (env : forall c : call, W -> result (answer c) * W)
    (bucketname : string) (bucket : s3_bucket) (endpoint : string) (dbConn : conn)
    (fuel : nat) (w w0 : W) (t0 : trace) (cmd : Z) :
  1 <= cmd <= 7 ->
  run env prompt w = (Returned cmd, w0, t0) ->
  exists h,
    handler_of bucketname bucket endpoint dbConn cmd = Some h /\
    forall w1 t1,
      run env h w0 = (Returned tt, w1, t1) ->
      run env (command_loop bucketname bucket endpoint dbConn (S fuel)) w =
        after (t0 ++ t1)
          (run env (command_loop bucketname bucket endpoint dbConn fuel) w1) /\
      run env (command_loop bucketname bucket endpoint dbConn 1) w =
        (Returned AWAITING_COMMAND, w1, t0 ++ t1) /\
      exists r rest,
        trace_of
          (run env (command_loop bucketname bucket endpoint dbConn (S (S fuel))) w)
        = t0 ++ t1 ++ Ev (Print "") r :: rest.
Proof.
  intros Hc Hp.
  exists (dispatch bucketname bucket endpoint dbConn cmd).
  split; [apply dispatch_handler; exact Hc|].
  intros w1 t1 Hb.
  assert (Hne : cmd <> 0) by lia.
  split; [|split].
  - eapply loop_round; eassumption.
  - rewrite (loop_round env _ _ _ _ 0 w w0 w1 t0 t1 cmd Hne Hp Hb).
    simpl. rewrite app_nil_r. reflexivity.
  - rewrite (loop_round env _ _ _ _ (S fuel) w w0 w1 t0 t1 cmd Hne Hp Hb).
    rewrite trace_of_after.
    destruct (command_loop_starts_with_menu env bucketname bucket endpoint
                dbConn fuel w1) as (r & rest & ->).
    exists r, rest. rewrite <- app_assoc. reflexivity.
Qed.

(** C7.  When a number below 0 or above 7 has been read, the menu has no
    command for it and the body of the loop is a single [print] of the
    warning: every execution of the body has that one call and nothing
    else, so no gateway is called.  After the warning the loop goes on
    from the point where it awaits a command, as in C6. *)
Theorem unknown_command_reprompts {W : Type}
    (env : forall c : call, W -> result (answer c) * W)
    (bucketname : string) (bucket : s3_bucket) (endpoint : string) (dbConn : conn)
    (fuel : nat) (w w0 w1 : W) (t0 : trace) (cmd : Z) :
  cmd < 0 \/ 7 < cmd ->
  run env prompt w = (Returned cmd, w0, t0) ->
  env (Print "** Unknown command, try again...") w0 = (Ok tt, w1) ->
  let warning := Ev (Print "** Unknown command, try again...") (Ok tt) in
  handler_of bucketname bucket endpoint dbConn cmd = None /\
  (forall t o, exec (dispatch bucketname bucket endpoint dbConn cmd) t o ->
     exists r, t = [Ev (Print "** Unknown command, try again...") r]) /\
  run env (dispatch bucketname bucket endpoint dbConn cmd) w0 =
    (Returned tt, w1, [warning]) /\
  run env (command_loop bucketname bucket endpoint dbConn (S fuel)) w =
    after (t0 ++ [warning])
      (run env (command_loop bucketname bucket endpoint dbConn fuel) w1) /\
  run env (command_loop bucketname bucket endpoint dbConn 1) w =
    (Returned AWAITING_COMMAND, w1, t0 ++ [warning]) /\
  exists r rest,
    trace_of
      (run env (command_loop bucketname bucket endpoint dbConn (S (S fuel))) w)
    = t0 ++ warning :: Ev (Print "") r :: rest.
Proof.
  intros Hc Hp Hw warning.
  destruct (dispatch_unknown bucketname bucket endpoint dbConn cmd Hc)
    as [Hmenu Hbody].
  assert (Hb : run env (dispatch bucketname bucket endpoint dbConn cmd) w0 =
               (Returned tt, w1, [warning])).
  { rewrite Hbody. cbn. rewrite Hw. reflexivity. }
  assert (Hne : cmd <> 0) by lia.
  split; [exact Hmenu|]. split; [|split; [exact Hb|split; [|split]]].
  - intros t o Hex. rewrite Hbody in Hex. cbn in Hex.
    destruct Hex as [(x & t' & -> & -> & _) | (e & -> & _)].
    + exists (Ok x). reflexivity.
    + exists (Err e). reflexivity.
  - eapply loop_round; eassumption.
  - rewrite (loop_round env _ _ _ _ 0 w w0 w1 t0 [warning] cmd Hne Hp Hb).
    simpl. rewrite app_nil_r. reflexivity.
  - rewrite (loop_round env _ _ _ _ (S fuel) w w0 w1 t0 [warning] cmd Hne Hp Hb).
    rewrite trace_of_after.
    destruct (command_loop_starts_with_menu env bucketname bucket endpoint
                dbConn fuel w1) as (r & rest & ->).
    exists r, rest. rewrite <- app_assoc. reflexivity.
Qed.

(** C8.  When the line read at the command prompt is not a number,
    [prompt] raises [ValueError] and so does the loop, in the same world
    and with the same trace: nothing is dispatched and nothing is printed
    after the line was read.  When the line is a number, the loop ends at
    that prompt exactly if the number is 0; any other number sends the
    loop into its body and then back to the prompt.  A run that leaves the
    loop through its test has read a line that stands for 0 as its last
    event: command 0 is the only way the loop ends without an exception.
    It is not the only other way the loop ends: a run of the loop that
    ends with an exception ends either in [prompt], on a line that is not
    a number ([ValueError]) or on a console call that raised, or in the
    body of the loop, where the handler of a command other than 0
    raised. *)
Theorem non_numeric_command_terminates {W : Type}
    (env : forall c : call, W -> result (answer c) * W)
    (bucketname : string) (bucket : s3_bucket) (endpoint : string) (dbConn : conn)
    (fuel : nat) (w w0 : W) (t0 : trace) (o : outcome Z) :
  run env prompt w = (o, w0, t0) ->
  (forall s, In (Ev Input (Ok s)) t0 -> Py.int s = None ->
     o = Raised ValueError /\
     (exists pre, t0 = pre ++ [Ev Input (Ok s)]) /\
     run env (command_loop bucketname bucket endpoint dbConn (S fuel)) w =
       (Raised ValueError, w0, t0)) /\
  (o = Returned 0 ->
     run env (command_loop bucketname bucket endpoint dbConn (S fuel)) w =
       (Returned TERMINATED, w0, t0)) /\
  (forall cmd, o = Returned cmd -> cmd <> 0 ->
     run env (command_loop bucketname bucket endpoint dbConn (S fuel)) w =
       after t0
         (run env
            (bind (dispatch bucketname bucket endpoint dbConn cmd)
               (fun _ => command_loop bucketname bucket endpoint dbConn fuel))
            w0)) /\
  (forall n w1 w2 t,
     run env (command_loop bucketname bucket endpoint dbConn n) w1 =
       (Returned TERMINATED, w2, t) ->
     exists pre s, t = pre ++ [Ev Input (Ok s)] /\ Py.int s = Some 0) /\
  (forall n w1 w2 t e,
     run env (command_loop bucketname bucket endpoint dbConn n) w1 =
       (Raised e, w2, t) ->
     exists pre wp tp,
       t = pre ++ tp /\
       ((run env prompt wp = (Raised e, w2, tp) /\
         ((exists tq s, tp = tq ++ [Ev Input (Ok s)] /\ Py.int s = None /\
                        e = ValueError) \/
          (exists tq c, tp = tq ++ [Ev c (Err e)] /\ is_console c = true))) \/
        (exists cmd, cmd <> 0 /\
           run env (dispatch bucketname bucket endpoint dbConn cmd) wp =
             (Raised e, w2, tp)))).
Proof.
  intros Hp. split; [|split; [|split; [|split]]].
  - intros s Hin Hs.
    pose proof (run_exec env _ _ _ _ _ Hp) as Hex. unfold prompt in Hex.
    assert (Ho : o = Raised ValueError /\ exists pre, t0 = pre ++ [Ev Input (Ok s)]).
    { exec_inv Hex; in_inv Hin; tidy; try congruence.
      split; [reflexivity|].
      exists [Ev (Print "") (Ok tt); Ev (Print ">> Enter a command:") (Ok tt);
              Ev (Print "   0 => end") (Ok tt); Ev (Print "   1 => stats") (Ok tt);
              Ev (Print "   2 => users") (Ok tt);
              Ev (Print "   3 => assets") (Ok tt);
              Ev (Print "   4 => download") (Ok tt);
              Ev (Print "   5 => download and display") (Ok tt);
              Ev (Print "   6 => upload") (Ok tt);
              Ev (Print "   7 => add user") (Ok tt)].
      reflexivity. }
    destruct Ho as [-> Hpre]. split; [reflexivity|]. split; [exact Hpre|].
    apply loop_prompt_raises, Hp.
  - intros ->. apply loop_exits, Hp.
  - intros cmd -> Hc. eapply loop_dispatches; eassumption.
  - intros n w1 w2 t. apply loop_terminated_by_zero.
  - intros n w1 w2 t e Hr.
    apply loop_raised in Hr as (pre & wp & tp & -> & [Hq | Hb]).
    + exists pre, wp, tp. split; [reflexivity|]. left. split; [exact Hq|].
      apply prompt_raised. exact (run_exec env _ _ _ _ _ Hq).
    + exists pre, wp, tp. split; [reflexivity|]. right. exact Hb.
Qed.

(** C8, as first stated, fails: a session in which the database is out of
    reach ends while command 1 runs, with [StoreError].  The one line read
    until then is "1", a number other than 0; the exit command "0" is
    never read and fuel for four more prompts is left. *)
Lemma loop_ends_on_handler_error :
  let r := run (env_with store_down)
             (command_loop "photoapp-bucket" "photoapp-bucket" "db" 1 5)
             (Model.initial ["1"; "0"] [] [] [] true) in
  outcome_of r = Raised StoreError /\
  List.filter is_input (trace_of r) = [Ev Input (Ok "1")] /\
  Py.int "1" = Some 1 /\
  Model.stdin (world_of r) = ["0"] /\
  ~ (exists s, In (Ev Input (Ok s)) (trace_of r) /\
               (Py.int s = None \/ Py.int s = Some 0)).
Proof.
  intros r.
  assert (Hf : List.filter is_input (trace_of r) = [Ev Input (Ok "1")])
    by (vm_compute; reflexivity).
  assert (H1 : Py.int "1" = Some 1) by (vm_compute; reflexivity).
  split; [vm_compute; reflexivity|]. split; [exact Hf|].
  split; [exact H1|]. split; [vm_compute; reflexivity|].
  intros (s & Hin & Hs).
  assert (Hin' : In (Ev Input (Ok s)) (List.filter is_input (trace_of r)))
    by (apply List.filter_In; split; [exact Hin | reflexivity]).
  rewrite Hf in Hin'. in_inv Hin'.
  rewrite H1 in Hs. destruct Hs as [Hs | Hs]; discriminate Hs.
Qed.

Lemma handler_returns_to_prompt_witness :
  let w := Model.initial ["2"] [] []
             [Model.User 7 "a@b.com" "Smith" "Jane" "f-1"] true in
  let r0 := run Model.env prompt w in
  let r1 := run Model.env (users 1) (world_of r0) in
  1 <= 2 <= 7 /\
  run Model.env prompt w = (Returned 2, world_of r0, trace_of r0) /\
  run Model.env (users 1) (world_of r0) = (Returned tt, world_of r1, trace_of r1) /\
  run Model.env (command_loop "photoapp-bucket" "photoapp-bucket" "db" 1 1) w =
    (Returned AWAITING_COMMAND, world_of r1, trace_of r0 ++ trace_of r1).
Proof.
  intros w r0 r1.
  assert (Hc : 1 <= 2 <= 7) by lia.
  assert (Hp : run Model.env prompt w = (Returned 2, world_of r0, trace_of r0))
    by (vm_compute; reflexivity).
  assert (Hh : run Model.env (users 1) (world_of r0) =
               (Returned tt, world_of r1, trace_of r1))
    by (vm_compute; reflexivity).
  split; [exact Hc|]. split; [exact Hp|]. split; [exact Hh|].
  destruct (handler_returns_to_prompt Model.env "photoapp-bucket"
              "photoapp-bucket" "db" 1 0 w (world_of r0) (trace_of r0) 2 Hc Hp)
    as (h & Hmenu & Hloop).
  injection Hmenu as <-.
  exact (proj1 (proj2 (Hloop _ _ Hh))).
Defined.

Lemma unknown_command_reprompts_witness :
  let w := Model.initial ["-1"] [] [] [] true in
  let r0 := run Model.env prompt w in
  let w1 := Model.set_stdout (world_of r0)
              (Model.stdout (world_of r0) ++ ["** Unknown command, try again..."]) in
  (-1 < 0 \/ 7 < -1) /\
  run Model.env prompt w = (Returned (-1), world_of r0, trace_of r0) /\
  run Model.env (command_loop "photoapp-bucket" "photoapp-bucket" "db" 1 1) w =
    (Returned AWAITING_COMMAND, w1,
     trace_of r0 ++ [Ev (Print "** Unknown command, try again...") (Ok tt)]).
Proof.
  intros w r0 w1.
  assert (Hc : -1 < 0 \/ 7 < -1) by (left; lia).
  assert (Hp : run Model.env prompt w =
               (Returned (-1), world_of r0, trace_of r0))
    by (vm_compute; reflexivity).
  split; [exact Hc|]. split; [exact Hp|].
  exact (proj1 (proj2 (proj2 (proj2 (proj2
           (unknown_command_reprompts Model.env "photoapp-bucket"
              "photoapp-bucket" "db" 1 0 w (world_of r0) w1 (trace_of r0) (-1)
              Hc Hp eq_refl)))))).
Defined.

Lemma non_numeric_command_terminates_witness :
  let w := Model.initial ["stats"; "0"] [] [] [] true in
  let r0 := run Model.env prompt w in
  run Model.env prompt w = (outcome_of r0, world_of r0, trace_of r0) /\
  In (Ev Input (Ok "stats")) (trace_of r0) /\
  Py.int "stats" = None /\
  outcome_of r0 = Raised ValueError /\
  (exists pre, trace_of r0 = pre ++ [Ev Input (Ok "stats")]) /\
  run Model.env (command_loop "photoapp-bucket" "photoapp-bucket" "db" 1 5) w =
    (Raised ValueError, world_of r0, trace_of r0).
Proof.
  intros w r0.
  assert (Hp : run Model.env prompt w = (outcome_of r0, world_of r0, trace_of r0))
    by (vm_compute; reflexivity).
  assert (Hin : In (Ev Input (Ok "stats")) (trace_of r0)).
  { vm_compute. do 10 right. left. reflexivity. }
  split; [exact Hp|]. split; [exact Hin|]. split; [reflexivity|].
  exact (proj1 (non_numeric_command_terminates Model.env "photoapp-bucket"
                  "photoapp-bucket" "db" 1 4 w (world_of r0) (trace_of r0)
                  (outcome_of r0) Hp) "stats" Hin eq_refl).
Defined.

(** ** Adding a user, then listing the users *)

Lemma next_id_gt (ids : list Z) (z : Z) :
  In z ids -> z < Model.next_id ids.
Proof.
  unfold Model.next_id. induction ids as [| y ids IH]; simpl; [tauto|].
  intros [-> | H]; [lia|]. specialize (IH H). lia.
Qed.

Lemma insert_desc_In {A : Type} (key : A -> Z) (x y : A) (l : list A) :
  In y (Model.insert_desc key x l) -> y = x \/ In y l.
Proof.
  induction l as [| z l IH]; simpl.
  - intros [<- | []]. left. reflexivity.
  - destruct (key z <? key x); simpl.
    + intros [<- | H]; [left; reflexivity | right; exact H].
    + intros [<- | H]; [right; left; reflexivity|].
      destruct (IH H) as [-> | H']; [left; reflexivity | right; right; exact H'].
Qed.

Lemma sort_desc_In {A : Type} (key : A -> Z) (y : A) (l : list A) :
  In y (Model.sort_desc key l) -> In y l.
Proof.
  induction l as [| x l IH]; simpl; [tauto|].
  intros H. apply insert_desc_In in H as [-> | H]; [left; reflexivity|].
  right. apply IH, H.
Qed.

(** A row whose key is above all others comes first in descending
    order. *)
Lemma sort_desc_head {A : Type} (key : A -> Z) (x : A) (l : list A) :
  (forall y, In y l -> key y < key x) ->
  Model.sort_desc key (x :: l) = x :: Model.sort_desc key l.
Proof.
  intros Hmax. simpl.
  destruct (Model.sort_desc key l) as [| z rest] eqn:E; [reflexivity|].
  simpl. assert (Hz : key z < key x).
  { apply Hmax, (sort_desc_In key). rewrite E. left. reflexivity. }
  destruct (Z.ltb_spec (key z) (key x)); [reflexivity | lia].
Qed.

(** The users table is a function of the trace. *)
Lemma env_users_tbl (c : call) (w : Model.world) :
  Model.users_tbl (snd (Model.env c w)) =
  Model.replay_user (Ev c (fst (Model.env c w))) (Model.users_tbl w).
Proof.
  destruct c; cbn;
    unfold Model.perform_action, Model.upload_file, Model.download_file;
    break_match; cbn in *; try reflexivity; congruence.
Qed.

Lemma run_users_tbl {A : Type} (p : prog A) (w : Model.world) :
  Model.users_tbl (world_of (run Model.env p w)) =
  fold_left (fun tbl ev => Model.replay_user ev tbl)
    (trace_of (run Model.env p w)) (Model.users_tbl w).
Proof.
  revert w. induction p as [a | e | c k IH]; intros w; try reflexivity.
  pose proof (env_users_tbl c w) as Hstep.
  unfold world_of, trace_of in *. simpl.
  destruct (Model.env c w) as [[x | e] w1]; simpl in Hstep.
  - specialize (IH x w1).
    destruct (run Model.env (k x) w1) as [[o w2] t]. simpl in *.
    rewrite IH, Hstep. reflexivity.
  - simpl. exact Hstep.
Qed.

(** The shape of an add-user whose insert went through. *)
Lemma add_user_trace (dbConn : conn) (bucket : s3_bucket) (t : trace)
    (c : conn) (sql : string) (ps : list value) (n : Z) :
  exec (add_user dbConn bucket) t (Returned tt) ->
  In (Ev (PerformAction c sql ps) (Ok n)) t -> 0 < n ->
  exists e l f folder last_id,
    ps = [VStr e; VStr l; VStr f; VStr folder] /\ sql = insert_user_query /\
    t = [Ev (Print "Enter user's email>") (Ok tt); Ev Input (Ok e);
         Ev (Print "Enter user's last (family) name>") (Ok tt); Ev Input (Ok l);
         Ev (Print "Enter user's first (given) name>") (Ok tt); Ev Input (Ok f);
         Ev Uuid4 (Ok folder);
         Ev (PerformAction dbConn insert_user_query
               [VStr e; VStr l; VStr f; VStr folder]) (Ok n);
         Ev (RetrieveOneRow dbConn last_id_query []) (Ok (Some last_id));
         Ev (Print (render [VStr "Recorded in RDS under user id ";
                            nth 0 last_id VNone])) (Ok tt)].
Proof.
  intros Hex Hin Hn. unfold add_user in Hex.
  exec_inv Hex; in_inv Hin; tidy; try lia.
  destruct r as [| v0 r']; [discriminate|].
  match goal with H : Some _ = Some _ |- _ => injection H as -> end.
  do 4 eexists. eexists (_ :: _). repeat split; reflexivity.
Qed.

(** Runs of the loop of the users command over well-formed rows. *)
Lemma run_for_each_blocks (body : row -> prog unit) (us : list Model.user) :
  (forall u w, exists w' t,
     run Model.env (body (Model.user_row u)) w = (Returned tt, w', t)
     /\ printed t = Model.user_block u) ->
  forall w, exists w' t,
    run Model.env (for_each (map Model.user_row us) body) w = (Returned tt, w', t)
    /\ printed t = flat_map Model.user_block us.
Proof.
  intros Hbody. induction us as [| u us IH]; intros w.
  - exists w, []. split; reflexivity.
  - destruct (Hbody u w) as (w1 & t1 & Hr1 & Hp1).
    destruct (IH w1) as (w2 & t2 & Hr2 & Hp2).
    exists w2, (t1 ++ t2). split.
    + change (for_each (map Model.user_row (u :: us)) body)
        with (bind (body (Model.user_row u))
                (fun _ => for_each (map Model.user_row us) body)).
      rewrite run_bind, Hr1, Hr2. reflexivity.
    + unfold printed in *. rewrite omap_app, Hp1, Hp2. reflexivity.
Qed.

(** The users command prints the block of every user, highest identifier
    first. *)
Lemma run_list_users (dbConn : conn) (w : Model.world) :
  exists w' t,
    run Model.env (users dbConn) w = (Returned tt, w', t)
    /\ printed t =
       flat_map Model.user_block (Model.sort_desc Model.userid (Model.users_tbl w)).
Proof.
  unfold users, mbind, prog_bind.
  rewrite run_bind. cbn [run perform].
  change (Model.env (RetrieveAllRows dbConn list_user_query []) w)
    with (Ok (map Model.user_row
                (Model.sort_desc Model.userid (Model.users_tbl w))), w).
  cbv iota beta.
  match goal with |- context [for_each _ ?b] =>
    destruct (run_for_each_blocks b
                (Model.sort_desc Model.userid (Model.users_tbl w))) with (w := w)
      as (w' & t & Hr & Hp) end.
  - intros u w0. cbn. do 2 eexists. split; reflexivity.
  - rewrite Hr. do 2 eexists. split; [reflexivity|].
    cbn. exact Hp.
Qed.

(** C9.  In the reference environment, when add-user has returned and
    its insert reported success, the users command run next returns and
    the first four lines it prints are the block of the new user: an
    identifier above every identifier the table had, the e-mail and names
    that were entered, and the folder identifier that [uuid4] generated
    during add-user and that the insert stored. *)
Theorem add_user_then_list_users (dbConn : conn) (bucket : s3_bucket)
    (w w1 : Model.world) (t1 : trace) (c : conn) (sql : string)
    (ps : list value) (n : Z) :
  run Model.env (add_user dbConn bucket) w = (Returned tt, w1, t1) ->
  In (Ev (PerformAction c sql ps) (Ok n)) t1 ->
  0 < n ->
  exists e l f folder id w2 t2 rest,
    sql = insert_user_query /\
    ps = [VStr e; VStr l; VStr f; VStr folder] /\
    In (Ev Uuid4 (Ok folder)) t1 /\
    (forall u, In u (Model.users_tbl w) -> Model.userid u < id) /\
    run Model.env (users dbConn) w1 = (Returned tt, w2, t2) /\
    printed t2 =
      [render [VStr "User Id:"; VInt id];
       "  Email: " +:+ e;
       "  Name: " +:+ ((l +:+ " , ") +:+ f);
       "  Folder: " +:+ folder] ++ rest.
Proof.
  intros Hrun Hin Hn.
  pose proof (run_exec Model.env _ _ _ _ _ Hrun) as Hex.
  destruct (add_user_trace _ _ _ _ _ _ _ Hex Hin Hn)
    as (e & l & f & folder & last_id & -> & -> & Ht).
  pose proof (run_users_tbl (add_user dbConn bucket) w) as Htbl.
  rewrite Hrun in Htbl. unfold world_of, trace_of in Htbl. simpl fst in Htbl.
  simpl snd in Htbl. rewrite Ht in Htbl. cbn in Htbl.
  destruct (run_list_users dbConn w1) as (w2 & t2 & Hr2 & Hp2).
  rewrite Htbl in Hp2.
  rewrite sort_desc_head in Hp2.
  2: { intros y Hy. cbn. apply next_id_gt, in_map, Hy. }
  exists e, l, f, folder,
    (Model.next_id (map Model.userid (Model.users_tbl w))), w2, t2,
    (flat_map Model.user_block
       (Model.sort_desc Model.userid (Model.users_tbl w))).
  repeat split.
  - rewrite Ht. cbn. do 6 right. left. reflexivity.
  - intros u Hu. apply next_id_gt, in_map, Hu.
  - exact Hr2.
  - exact Hp2.
Qed.

Lemma add_user_then_list_users_witness :
  let w := Model.initial ["a@b.com"; "Smith"; "Jane"] ["f-new"] []
             [Model.User 80001 "p@q.org" "Doe" "Pat" "f-old";
              Model.User 80004 "r@s.org" "Roe" "Sam" "f-mid"] true in
  let r1 := run Model.env (add_user 1 "photoapp-bucket") w in
  run Model.env (add_user 1 "photoapp-bucket") w =
    (Returned tt, world_of r1, trace_of r1) /\
  In (Ev (PerformAction 1 insert_user_query
            [VStr "a@b.com"; VStr "Smith"; VStr "Jane"; VStr "f-new"]) (Ok 1))
     (trace_of r1) /\
  0 < 1 /\
  exists e l f folder id w2 t2 rest,
    insert_user_query = insert_user_query /\
    [VStr "a@b.com"; VStr "Smith"; VStr "Jane"; VStr "f-new"] =
      [VStr e; VStr l; VStr f; VStr folder] /\
    In (Ev Uuid4 (Ok folder)) (trace_of r1) /\
    (forall u, In u (Model.users_tbl w) -> Model.userid u < id) /\
    run Model.env (users 1) (world_of r1) = (Returned tt, w2, t2) /\
    printed t2 =
      [render [VStr "User Id:"; VInt id];
       "  Email: " +:+ e;
       "  Name: " +:+ ((l +:+ " , ") +:+ f);
       "  Folder: " +:+ folder] ++ rest.
Proof.
  intros w r1.
  assert (Hr : run Model.env (add_user 1 "photoapp-bucket") w =
               (Returned tt, world_of r1, trace_of r1))
    by (vm_compute; reflexivity).
  assert (Hin : In (Ev (PerformAction 1 insert_user_query
                          [VStr "a@b.com"; VStr "Smith"; VStr "Jane";
                           VStr "f-new"]) (Ok 1)) (trace_of r1)).
  { vm_compute. do 7 right. left. reflexivity. }
  assert (Hn : 0 < 1) by lia.
  split; [exact Hr|]. split; [exact Hin|]. split; [exact Hn|].
  exact (add_user_then_list_users 1 "photoapp-bucket" w (world_of r1)
           (trace_of r1) 1 insert_user_query _ 1 Hr Hin Hn).
Defined.

(** A concrete session: after add-user, the listing starts with the new
    user, who got identifier 80005. *)
Example add_user_then_list_users_run :
  let w := Model.initial ["a@b.com"; "Smith"; "Jane"] ["f-new"] []
             [Model.User 80001 "p@q.org" "Doe" "Pat" "f-old";
              Model.User 80004 "r@s.org" "Roe" "Sam" "f-mid"] true in
  let r1 := run Model.env (add_user 1 "photoapp-bucket") w in
  let r2 := run Model.env (users 1) (world_of r1) in
  firstn 4 (printed (trace_of r2)) =
    ["User Id: 80005"; "  Email: a@b.com"; "  Name: Smith , Jane";
     "  Folder: f-new"].
Proof. vm_compute. reflexivity. Qed.

(** ** The store key of an upload *)

(** C2.  The code at a concrete upload: user 1 owns the folder
    "9c1d-folder", [uuid4] yields "3f2b-key" and the file is cat.jpg.
    The upload succeeds, the blob is stored under "3f2b-key.jpg" and the
    asset row records that key: the folder of the user is not a prefix of
    it. *)
Example upload_key_lacks_user_folder :
  let w := Model.initial ["cat.jpg"; "1"] ["3f2b-key"] [("cat.jpg", "JPEG")]
             [Model.User 1 "a@b.com" "Smith" "Jane" "9c1d-folder"] true in
  let r := run Model.env (upload 1 "photoapp-bucket") w in
  outcome_of r = Returned tt /\
  Model.assets_tbl (world_of r) = [Model.Asset 1 1 "cat.jpg" "3f2b-key.jpg"] /\
  map_to_list (Model.blobs (world_of r)) = [("3f2b-key.jpg", "JPEG")] /\
  String.prefix "9c1d-folder" "3f2b-key.jpg" = false /\
  forallb (fun a => String.prefix "9c1d-folder" (Model.bucketkey a))
    (Model.assets_tbl (world_of r)) = false.
Proof. vm_compute. repeat split. Qed.

(** In every execution of upload the key handed to the store is the
    generated identifier followed by the suffix of the file name; the only
    thing read about the user is whether the identifier exists. *)
Lemma upload_key_is_uuid_and_suffix (dbConn : conn) (bucket : s3_bucket)
    (t : trace) (o : outcome unit) (local : string) (b : s3_bucket)
    (key : string) (r : result (option string)) :
  exec (upload dbConn bucket) t o ->
  In (Ev (UploadFile local b key) r) t ->
  exists fresh uid found,
    In (Ev Uuid4 (Ok fresh)) t /\ key = fresh +:+ suffix local /\
    In (Ev (RetrieveOneRow dbConn check_user_query [VStr uid]) (Ok found)) t /\
    length (List.filter is_db_call (firstn 8 t)) = 1%nat.
Proof.
  intros Hex Hin. unfold upload in Hex.
  exec_inv Hex; in_inv Hin; tidy;
    do 3 eexists; (split; [cbn; do 6 right; left; reflexivity|]);
    (split; [reflexivity|]);
    (split; [cbn; do 5 right; left; reflexivity | reflexivity]).
Qed.


(** ** What the commands never do *)

Section SessionStatements.
Variables (bucketname : string) (bucket : s3_bucket) (endpoint : string)
          (dbConn : conn).

Lemma dispatch_fixed_statement (cmd : Z) :
  calls_only fixed_statement (dispatch bucketname bucket endpoint dbConn cmd).
Proof.
  unfold dispatch, stats, users, assets, download, upload, add_user.
  repeat match goal with |- context [if ?b then _ else _] =>
    lazymatch b with (_ =? _) => destruct b end end; footprint.
Qed.

Lemma command_loop_fixed_statement (fuel : nat) :
  calls_only fixed_statement (command_loop bucketname bucket endpoint dbConn fuel).
Proof.
  induction fuel as [| fuel IH]; [exact I|].
  rewrite command_loop_S. apply calls_only_bind.
  - apply (calls_only_weaken is_console); [|apply prompt_console].
    intros [] H; try discriminate H; reflexivity.
  - intros cmd. destruct (cmd =? 0); [exact I|].
    apply calls_only_bind; [apply dispatch_fixed_statement | intros _; exact IH].
Qed.

Lemma dispatch_insert_only (cmd : Z) :
  calls_only insert_only (dispatch bucketname bucket endpoint dbConn cmd).
Proof.
  unfold dispatch, stats, users, assets, download, upload, add_user.
  repeat match goal with |- context [if ?b then _ else _] =>
    lazymatch b with (_ =? _) => destruct b end end; footprint.
Qed.

Lemma command_loop_insert_only (fuel : nat) :
  calls_only insert_only (command_loop bucketname bucket endpoint dbConn fuel).
Proof.
  induction fuel as [| fuel IH]; [exact I|].
  rewrite command_loop_S. apply calls_only_bind.
  - apply (calls_only_weaken is_console); [|apply prompt_console].
    intros [] H; try discriminate H; reflexivity.
  - intros cmd. destruct (cmd =? 0); [exact I|].
    apply calls_only_bind; [apply dispatch_insert_only | intros _; exact IH].
Qed.
End SessionStatements.

(** X1.  Whatever the user types during a session, every statement sent
    to the database is one of the nine literal texts of the source: typed
    text travels as a bound parameter only. *)
Theorem statements_are_fixed (bucketname : string) (bucket : s3_bucket)
    (endpoint : string) (dbConn : conn) (fuel : nat) (t : trace)
    (o : outcome loop_state) (ev : event) (sql : string) :
  exec (command_loop bucketname bucket endpoint dbConn fuel) t o ->
  In ev t ->
  sql_of (call_of ev) = Some sql ->
  In sql source_queries.
Proof.
  intros Hex Hin Hsql.
  pose proof (exec_in_calls_only fixed_statement _ _ _ _
                (command_loop_fixed_statement _ _ _ _ fuel) Hex Hin) as H.
  unfold fixed_statement in H. rewrite Hsql in H.
  apply existsb_exists in H as (q & Hq & E).
  apply String.eqb_eq in E. subst q. exact Hq.
Qed.

(** X2.  The only statements a session executes with [perform_action]
    are the two inserts: no row is ever updated or deleted. *)
Theorem writes_are_inserts (bucketname : string) (bucket : s3_bucket)
    (endpoint : string) (dbConn : conn) (fuel : nat) (t : trace)
    (o : outcome loop_state) (c : conn) (sql : string) (ps : list value)
    (r : result Z) :
  exec (command_loop bucketname bucket endpoint dbConn fuel) t o ->
  In (Ev (PerformAction c sql ps) r) t ->
  sql = insert_asset_query \/ sql = insert_user_query.
Proof.
  intros Hex Hin.
  pose proof (exec_in_calls_only insert_only _ _ _ _
                (command_loop_insert_only _ _ _ _ fuel) Hex Hin) as H.
  cbn in H. apply orb_true_iff in H as [H | H]; apply String.eqb_eq in H; auto.
Qed.

(** Find an event in the trace of a concrete run. *)
Ltac in_list := vm_compute; repeat (first [left; reflexivity | right]).

Lemma statements_are_fixed_witness :
  let r := run Model.env
             (command_loop "photoapp-bucket" "photoapp-bucket" "db" 1 3)
             (Model.initial ["7"; "a@b.com"; "x'); DROP TABLE users; --"; "Jane"; "0"]
                ["f-1"] [] [] true) in
  let ev := Ev (PerformAction 1 insert_user_query
                  [VStr "a@b.com"; VStr "x'); DROP TABLE users; --";
                   VStr "Jane"; VStr "f-1"]) (Ok 1) in
  In ev (trace_of r) /\
  sql_of (call_of ev) = Some insert_user_query /\
  In insert_user_query source_queries.
Proof.
  intros r ev.
  assert (Hin : In ev (trace_of r)) by in_list.
  split; [exact Hin|]. split; [reflexivity|].
  exact (statements_are_fixed _ _ _ _ 3 _ _ ev insert_user_query
           (run_is_exec Model.env _ _) Hin eq_refl).
Defined.

Lemma writes_are_inserts_witness :
  let r := run Model.env
             (command_loop "photoapp-bucket" "photoapp-bucket" "db" 1 3)
             (Model.initial ["7"; "a@b.com"; "Smith"; "Jane"; "0"]
                ["f-1"] [] [] true) in
  In (Ev (PerformAction 1 insert_user_query
            [VStr "a@b.com"; VStr "Smith"; VStr "Jane"; VStr "f-1"]) (Ok 1))
     (trace_of r) /\
  (insert_user_query = insert_asset_query \/ insert_user_query = insert_user_query).
Proof.
  intros r.
  assert (Hin : In (Ev (PerformAction 1 insert_user_query
                          [VStr "a@b.com"; VStr "Smith"; VStr "Jane";
                           VStr "f-1"]) (Ok 1)) (trace_of r)) by in_list.
  split; [exact Hin|].
  exact (writes_are_inserts _ _ _ _ 3 _ _ _ _ _ _
           (run_is_exec Model.env _ _) Hin).
Defined.

(** X3.  The three reporting commands only print, query and list the
    bucket: they never read the console, never write to the database,
    never upload or download, never touch the local disk. *)
Theorem reporting_commands_read_only (bucketname : string) (bucket : s3_bucket)
    (endpoint : string) (dbConn : conn) (cmd : Z) (t : trace)
    (o : outcome unit) :
  1 <= cmd <= 3 ->
  exec (dispatch bucketname bucket endpoint dbConn cmd) t o ->
  forallb (fun e => read_only (call_of e)) t = true.
Proof.
  intros Hc Hex. eapply exec_calls_only; [|exact Hex].
  assert (H : cmd = 1 \/ cmd = 2 \/ cmd = 3) by lia.
  destruct H as [-> | [-> | ->]];
    unfold dispatch, stats, users, assets; cbn [Z.eqb Pos.eqb]; footprint.
Qed.

Lemma reporting_commands_read_only_witness :
  let r := run Model.env (dispatch "photoapp-bucket" "photoapp-bucket" "db" 1 1)
             (Model.initial [] [] []
                [Model.User 7 "a@b.com" "Smith" "Jane" "f-1"] true) in
  1 <= 1 <= 3 /\
  forallb (fun e => read_only (call_of e)) (trace_of r) = true.
Proof.
  intros r. assert (Hc : 1 <= 1 <= 3) by lia. split; [exact Hc|].
  exact (reporting_commands_read_only _ _ _ _ 1 _ _ Hc
           (run_is_exec Model.env _ _)).
Defined.

(** A trace without start-up calls has no connection event. *)
Lemma no_connect_without_startup (t : trace) :
  forallb (fun e => not_startup (call_of e)) t = true ->
  List.filter is_connect t = [].
Proof.
  induction t as [| [c r] t IH]; simpl; [reflexivity|].
  intros H. apply andb_true_iff in H as [Hc Ht].
  rewrite (IH Ht). destruct c; try reflexivity. discriminate Hc.
Qed.

(** X4.  A whole run of the program opens the database connection at
    most once, during start-up; no command reconnects. *)
Theorem connects_at_most_once (fuel : nat) (t : trace) (o : outcome loop_state) :
  exec (main fuel) t o ->
  (length (List.filter is_connect t) <= 1)%nat.
Proof.
  intros Hex. unfold main in Hex.
  exec_inv Hex; tidy; cbn; try lia.
  match goal with H : exec ?p ?t0 _ |- _ =>
    assert (Hp : calls_only not_startup p)
      by (apply after_loop_not_startup; intros []; footprint);
    rewrite (no_connect_without_startup t0
               (exec_calls_only _ _ _ _ Hp H))
  end.
  cbn. lia.
Qed.

Lemma connects_at_most_once_witness :
  let r := run Model.env (main 5)
             (Model.initial [""; "1"; "2"; "0"] [] [("photoapp-config.ini", "")]
                [] true) in
  outcome_of r = Returned TERMINATED /\
  (length (List.filter is_connect (trace_of r)) <= 1)%nat.
Proof.
  intros r. split; [vm_compute; reflexivity|].
  exact (connects_at_most_once 5 _ _ (run_is_exec Model.env _ _)).
Defined.


(** ** The other branches of upload and add-user *)

(** X5.  An upload for a user identifier that the lookup does not find
    prints "No such user..." and ends: no key is generated, the store is
    not called and nothing is written to the database. *)
Theorem upload_no_such_user (dbConn : conn) (bucket : s3_bucket) (t : trace)
    (o : outcome unit) (c : conn) (ps : list value) (found : option row) :
  exec (upload dbConn bucket) t o ->
  In (Ev (RetrieveOneRow c check_user_query ps) (Ok found)) t ->
  truthy_row found = false ->
  exists local uid r,
    t = [Ev (Print "Enter local filename>") (Ok tt); Ev Input (Ok local);
         Ev (PathExists local) (Ok true);
         Ev (Print "Enter user id>") (Ok tt); Ev Input (Ok uid);
         Ev (RetrieveOneRow dbConn check_user_query [VStr uid]) (Ok found);
         Ev (Print "No such user...") r]
    /\ o = match r with Ok _ => Returned tt | Err e => Raised e end.
Proof.
  intros Hex Hin Hf. unfold upload in Hex.
  exec_inv Hex; in_inv Hin; tidy; try contra; try discriminate;
    try (match goal with H : negb (truthy_row _) = false |- _ =>
           rewrite Hf in H; discriminate H end);
    do 3 eexists; split; reflexivity.
Qed.

Lemma upload_no_such_user_witness :
  let r := run Model.env (upload 1 "photoapp-bucket")
             (Model.initial ["cat.jpg"; "42"] ["k-1"] [("cat.jpg", "JPEG")]
                [Model.User 1 "a@b.com" "Smith" "Jane" "f-1"] true) in
  In (Ev (RetrieveOneRow 1 check_user_query [VStr "42"]) (Ok (Some [])))
     (trace_of r) /\
  exists local uid m,
    trace_of r =
      [Ev (Print "Enter local filename>") (Ok tt); Ev Input (Ok local);
       Ev (PathExists local) (Ok true);
       Ev (Print "Enter user id>") (Ok tt); Ev Input (Ok uid);
       Ev (RetrieveOneRow 1 check_user_query [VStr uid]) (Ok (Some []));
       Ev (Print "No such user...") m]
    /\ outcome_of r = match m with Ok _ => Returned tt | Err e => Raised e end.
Proof.
  intros r.
  assert (Hin : In (Ev (RetrieveOneRow 1 check_user_query [VStr "42"])
                       (Ok (Some []))) (trace_of r)) by in_list.
  split; [exact Hin|].
  exact (upload_no_such_user 1 "photoapp-bucket" _ _ _ _ _
           (run_is_exec Model.env _ _) Hin eq_refl).
Defined.

(** X6.  When the insert of the asset row reports no row affected, upload
    prints the insert-failure message and ends.  It does not ask for the
    last inserted identifier, and it makes no further call to the store:
    the blob uploaded two calls earlier stays in the bucket. *)
Theorem upload_insert_failure (dbConn : conn) (bucket : s3_bucket) (t : trace)
    (o : outcome unit) (c : conn) (sql : string) (ps : list value) (n : Z) :
  exec (upload dbConn bucket) t o ->
  In (Ev (PerformAction c sql ps) (Ok n)) t ->
  n <= 0 ->
  exists local uid found fresh key r,
    t = [Ev (Print "Enter local filename>") (Ok tt); Ev Input (Ok local);
         Ev (PathExists local) (Ok true);
         Ev (Print "Enter user id>") (Ok tt); Ev Input (Ok uid);
         Ev (RetrieveOneRow dbConn check_user_query [VStr uid]) (Ok found);
         Ev Uuid4 (Ok fresh);
         Ev (UploadFile local bucket (fresh +:+ suffix local)) (Ok (Some key));
         Ev (Print ("Uploaded and stored in S3 as ' " +:+ key +:+ " '")) (Ok tt);
         Ev (PerformAction dbConn insert_asset_query
               [VStr uid; VStr local; VStr key]) (Ok n);
         Ev (Print "Failed to insert asset info into the database.") r]
    /\ o = match r with Ok _ => Returned tt | Err e => Raised e end.
Proof.
  intros Hex Hin Hn. unfold upload in Hex.
  exec_inv Hex; in_inv Hin; tidy; try contra;
    try (match goal with H : (_ <=? _) = false |- _ =>
           apply Z.leb_gt in H; lia end);
    do 6 eexists; split; reflexivity.
Qed.

Lemma upload_insert_failure_witness :
  let r := run (env_with insert_rejected) (upload 1 "photoapp-bucket")
             (Model.initial ["cat.jpg"; "1"] ["k-1"] [("cat.jpg", "JPEG")]
                [Model.User 1 "a@b.com" "Smith" "Jane" "f-1"] true) in
  In (Ev (PerformAction 1 insert_asset_query
            [VStr "1"; VStr "cat.jpg"; VStr "k-1.jpg"]) (Ok (-1))) (trace_of r) /\
  -1 <= 0 /\
  List.last (printed (trace_of r)) "" =
    "Failed to insert asset info into the database." /\
  exists local uid found fresh key m,
    trace_of r =
      [Ev (Print "Enter local filename>") (Ok tt); Ev Input (Ok local);
       Ev (PathExists local) (Ok true);
       Ev (Print "Enter user id>") (Ok tt); Ev Input (Ok uid);
       Ev (RetrieveOneRow 1 check_user_query [VStr uid]) (Ok found);
       Ev Uuid4 (Ok fresh);
       Ev (UploadFile local "photoapp-bucket" (fresh +:+ suffix local))
          (Ok (Some key));
       Ev (Print ("Uploaded and stored in S3 as ' " +:+ key +:+ " '")) (Ok tt);
       Ev (PerformAction 1 insert_asset_query
             [VStr uid; VStr local; VStr key]) (Ok (-1));
       Ev (Print "Failed to insert asset info into the database.") m]
    /\ outcome_of r = match m with Ok _ => Returned tt | Err e => Raised e end.
Proof.
  intros r.
  assert (Hin : In (Ev (PerformAction 1 insert_asset_query
                          [VStr "1"; VStr "cat.jpg"; VStr "k-1.jpg"]) (Ok (-1)))
                   (trace_of r)) by in_list.
  assert (Hn : -1 <= 0) by lia.
  split; [exact Hin|]. split; [exact Hn|]. split; [vm_compute; reflexivity|].
  exact (upload_insert_failure 1 "photoapp-bucket" _ _ _ _ _ _
           (run_is_exec (env_with insert_rejected) _ _) Hin Hn).
Defined.

(** X7.  The row that add-user inserts carries, in this order, the three
    lines typed at its prompts (e-mail, last name, first name) and the
    identifier [uuid4] generated; the insert is the only gateway call up
    to that point, and add-user never calls the object store. *)
Theorem add_user_inserts_what_was_typed (dbConn : conn) (bucket : s3_bucket)
    (t : trace) (o : outcome unit) (c : conn) (sql : string)
    (ps : list value) (r : result Z) :
  exec (add_user dbConn bucket) t o ->
  In (Ev (PerformAction c sql ps) r) t ->
  existsb is_store_call t = false /\
  exists e l f folder rest,
    t = [Ev (Print "Enter user's email>") (Ok tt); Ev Input (Ok e);
         Ev (Print "Enter user's last (family) name>") (Ok tt); Ev Input (Ok l);
         Ev (Print "Enter user's first (given) name>") (Ok tt); Ev Input (Ok f);
         Ev Uuid4 (Ok folder);
         Ev (PerformAction dbConn insert_user_query
               [VStr e; VStr l; VStr f; VStr folder]) r] ++ rest
    /\ (c, sql, ps) =
       (dbConn, insert_user_query, [VStr e; VStr l; VStr f; VStr folder]).
Proof.
  intros Hex Hin. unfold add_user in Hex.
  exec_inv Hex; in_inv Hin; tidy;
    (split; [reflexivity|]); do 5 eexists; split; reflexivity.
Qed.

Lemma add_user_inserts_what_was_typed_witness :
  let r := run Model.env (add_user 1 "photoapp-bucket")
             (Model.initial ["a@b.com"; "Smith"; "Jane"] ["f-1"] [] [] true) in
  In (Ev (PerformAction 1 insert_user_query
            [VStr "a@b.com"; VStr "Smith"; VStr "Jane"; VStr "f-1"]) (Ok 1))
     (trace_of r) /\
  existsb is_store_call (trace_of r) = false.
Proof.
  intros r.
  assert (Hin : In (Ev (PerformAction 1 insert_user_query
                          [VStr "a@b.com"; VStr "Smith"; VStr "Jane";
                           VStr "f-1"]) (Ok 1)) (trace_of r)) by in_list.
  split; [exact Hin|].
  exact (proj1 (add_user_inserts_what_was_typed 1 "photoapp-bucket" _ _ _ _ _ _
                  (run_is_exec Model.env _ _) Hin)).
Defined.

(** X8.  When the insert of the user row reports no row affected,
    add-user prints the insert-failure message as its last call and does
    not ask for the last inserted identifier. *)
Theorem add_user_insert_failure (dbConn : conn) (bucket : s3_bucket)
    (t : trace) (o : outcome unit) (c : conn) (sql : string)
    (ps : list value) (n : Z) :
  exec (add_user dbConn bucket) t o ->
  In (Ev (PerformAction c sql ps) (Ok n)) t ->
  n <= 0 ->
  exists pre r,
    t = pre ++ [Ev (PerformAction dbConn insert_user_query ps) (Ok n);
                Ev (Print "Failed to insert user info into the database.") r]
    /\ existsb is_db_call pre = false
    /\ o = match r with Ok _ => Returned tt | Err e => Raised e end.
Proof.
  intros Hex Hin Hn. unfold add_user in Hex.
  exec_inv Hex; in_inv Hin; tidy;
    try (match goal with H : (_ <=? _) = false |- _ =>
           apply Z.leb_gt in H; lia end);
    eexists [_; _; _; _; _; _; _], _; repeat split; reflexivity.
Qed.

Lemma add_user_insert_failure_witness :
  let r := run (env_with insert_rejected) (add_user 1 "photoapp-bucket")
             (Model.initial ["a@b.com"; "Smith"; "Jane"] ["f-1"] [] [] true) in
  In (Ev (PerformAction 1 insert_user_query
            [VStr "a@b.com"; VStr "Smith"; VStr "Jane"; VStr "f-1"]) (Ok (-1)))
     (trace_of r) /\
  -1 <= 0 /\
  exists pre m,
    trace_of r =
      pre ++ [Ev (PerformAction 1 insert_user_query
                    [VStr "a@b.com"; VStr "Smith"; VStr "Jane"; VStr "f-1"])
                 (Ok (-1));
              Ev (Print "Failed to insert user info into the database.") m]
    /\ existsb is_db_call pre = false
    /\ outcome_of r = match m with Ok _ => Returned tt | Err e => Raised e end.
Proof.
  intros r.
  assert (Hin : In (Ev (PerformAction 1 insert_user_query
                          [VStr "a@b.com"; VStr "Smith"; VStr "Jane";
                           VStr "f-1"]) (Ok (-1))) (trace_of r)) by in_list.
  assert (Hn : -1 <= 0) by lia.
  split; [exact Hin|]. split; [exact Hn|].
  exact (add_user_insert_failure 1 "photoapp-bucket" _ _ _ _ _ _
           (run_is_exec (env_with insert_rejected) _ _) Hin Hn).
Defined.

(** X9.  Neither upload nor add-user guards the lookup of the last
    inserted identifier: when it comes back empty after a successful
    insert, the command raises ([IndexError] on the empty tuple,
    [TypeError] on [None]) right after that lookup, with the row already
    inserted and no confirmation printed. *)
Theorem last_id_lookup_unguarded (dbConn : conn) (bucket : s3_bucket)
    (p : prog unit) (t : trace) (o : outcome unit) (c : conn)
    (ps : list value) (found : option row) :
  p = upload dbConn bucket \/ p = add_user dbConn bucket ->
  exec p t o ->
  In (Ev (RetrieveOneRow c last_id_query ps) (Ok found)) t ->
  truthy_row found = false ->
  (o = Raised IndexError \/ o = Raised TypeError) /\
  exists pre sql row n,
    t = pre ++ [Ev (PerformAction dbConn sql row) (Ok n);
                Ev (RetrieveOneRow dbConn last_id_query []) (Ok found)]
    /\ 0 < n.
Proof.
  intros [-> | ->] Hex Hin Hf; [unfold upload in Hex | unfold add_user in Hex];
    exec_inv Hex; in_inv Hin; tidy; try contra; try discriminate;
    try (cbn in Hf; discriminate Hf);
    try (match goal with
         | H : match ?r with [] => None | _ :: _ => _ end = Some _ |- _ =>
             destruct r; [discriminate H | cbn in Hf; discriminate Hf]
         end);
    (split; [auto|]);
    match goal with H : (_ <=? _) = false |- _ => apply Z.leb_gt in H end;
    first [ eexists [_; _; _; _; _; _; _; _; _], _, _, _;
            split; [reflexivity | assumption]
          | eexists [_; _; _; _; _; _; _], _, _, _;
            split; [reflexivity | assumption] ].
Qed.

Lemma last_id_lookup_unguarded_witness :
  let r := run (env_with last_id_missing) (add_user 1 "photoapp-bucket")
             (Model.initial ["a@b.com"; "Smith"; "Jane"] ["f-1"] [] [] true) in
  In (Ev (RetrieveOneRow 1 last_id_query []) (Ok (Some []))) (trace_of r) /\
  outcome_of r = Raised IndexError /\
  (outcome_of r = Raised IndexError \/ outcome_of r = Raised TypeError).
Proof.
  intros r.
  assert (Hin : In (Ev (RetrieveOneRow 1 last_id_query []) (Ok (Some [])))
                   (trace_of r)) by in_list.
  split; [exact Hin|]. split; [vm_compute; reflexivity|].
  exact (proj1 (last_id_lookup_unguarded 1 "photoapp-bucket" _ _ _ _ _ _
                  (or_intror eq_refl) (run_is_exec (env_with last_id_missing) _ _)
                  Hin eq_refl)).
Defined.


(** ** The reporting commands *)

(** Executions of programs in which a test is followed by more code. *)
Ltac exec_inv H ::=
  cbn in H;
  lazymatch type of H with
  | _ \/ _ => exec_split H; [exec_inv H | .. ]
  | _ /\ _ =>
      let Ht := fresh "Ht" in
      let Ho := fresh "Ho" in
      destruct H as [Ht Ho]; use_eq Ht; use_eq Ho
  | exec (if ?b then _ else _) _ _ => destruct b eqn:?; exec_inv H
  | exec (match ?x with _ => _ end) _ _ => destruct x eqn:?; exec_inv H
  | exec (bind (match ?x with _ => _ end) _) _ _ => destruct x eqn:?; exec_inv H
  | exec (bind (bind (match ?x with _ => _ end) _) _) _ _ =>
      destruct x eqn:?; exec_inv H
  | exec _ _ _ => first [ progress (unfold_py H); exec_inv H | idtac ]
  end.

(** X10.  When stats returns it has printed the bucket name, the number
    of objects the bucket listing returned, the endpoint, and one line per
    count query that gave a row: a count query that comes back empty only
    drops its own line, and the other count is still asked for. *)
Theorem stats_output (bucketname : string) (bucket : s3_bucket)
    (endpoint : string) (dbConn : conn) (t : trace) :
  exec (stats bucketname bucket endpoint dbConn) t (Returned tt) ->
  exists objects users_cnt assets_cnt,
    In (Ev (BucketObjectsAll bucket) (Ok objects)) t /\
    In (Ev (RetrieveOneRow dbConn users_query []) (Ok users_cnt)) t /\
    In (Ev (RetrieveOneRow dbConn assets_query []) (Ok assets_cnt)) t /\
    printed t =
      [render [VStr "S3 bucket name:"; VStr bucketname];
       render [VStr "S3 assets:"; VInt (Z.of_nat (length objects))];
       render [VStr "RDS MySQL endpoint:"; VStr endpoint]]
      ++ count_line "# of users:" users_cnt
      ++ count_line "# of assets:" assets_cnt.
Proof.
  intros Hex. unfold stats in Hex.
  exec_inv Hex; tidy; try contra;
    repeat match goal with
      | H : match ?r with [] => None | _ :: _ => _ end = Some _ |- _ =>
          destruct r; [discriminate H | injection H as ->]
      | H : truthy_row (Some ?r) = false |- _ =>
          destruct r; [clear H | discriminate H]
      | H : truthy_row ?r = false |- _ =>
          is_var r; destruct r as [[| ? ?] |]; try discriminate H; clear H
      end;
    do 3 eexists;
    (split; [cbn; right; left; reflexivity|]);
    (split; [cbn; do 4 right; left; reflexivity|]);
    (split; [cbn; repeat (first [left; reflexivity | right])|]);
    reflexivity.
Qed.


Lemma stats_output_witness :
  let r := run (env_with rows_missing)
             (stats "photoapp-bucket" "photoapp-bucket" "db.example.org" 1)
             (Model.initial [] [] [] [] true) in
  outcome_of r = Returned tt /\
  printed (trace_of r) =
    ["S3 bucket name: photoapp-bucket"; "S3 assets: 0";
     "RDS MySQL endpoint: db.example.org"] /\
  exists objects users_cnt assets_cnt,
    In (Ev (BucketObjectsAll "photoapp-bucket") (Ok objects)) (trace_of r) /\
    In (Ev (RetrieveOneRow 1 users_query []) (Ok users_cnt)) (trace_of r) /\
    In (Ev (RetrieveOneRow 1 assets_query []) (Ok assets_cnt)) (trace_of r) /\
    printed (trace_of r) =
      [render [VStr "S3 bucket name:"; VStr "photoapp-bucket"];
       render [VStr "S3 assets:"; VInt (Z.of_nat (length objects))];
       render [VStr "RDS MySQL endpoint:"; VStr "db.example.org"]]
      ++ count_line "# of users:" users_cnt
      ++ count_line "# of assets:" assets_cnt.
Proof.
  intros r.
  assert (Ho : outcome_of r = Returned tt) by (vm_compute; reflexivity).
  split; [exact Ho|]. split; [vm_compute; reflexivity|].
  apply (stats_output "photoapp-bucket" "photoapp-bucket" "db.example.org" 1).
  rewrite <- Ho. exact (run_is_exec (env_with rows_missing) _ _).
Defined.

(** ** Download *)



(** ** The two listings *)

(** A loop whose body, when it returns, has printed the lines of its row
    has printed the lines of all rows, in order, when it returns. *)
Lemma for_each_prints {A : Type} (lines : A -> option (list string))
    (body : A -> prog unit) :
  (forall x t, exec (body x) t (Returned tt) ->
     exists b, lines x = Some b /\ printed t = b) ->
  forall l t, exec (for_each l body) t (Returned tt) ->
    exists blocks,
      Forall2 (fun x b => lines x = Some b) l blocks /\
      printed t = concat blocks.
Proof.
  intros Hbody l. induction l as [| x l IH]; intros t Hex.
  - destruct Hex as [-> _]. exists []. split; [constructor | reflexivity].
  - change (for_each (x :: l) body)
      with (bind (body x) (fun _ => for_each l body)) in Hex.
    apply exec_bind in Hex as [(a & t1 & t2 & H1 & H2 & ->) | (e & _ & He)];
      [|discriminate He].
    destruct a. destruct (Hbody x t1 H1) as (b & Hb & Hp1).
    destruct (IH t2 H2) as (blocks & Hall & Hp2).
    exists (b :: blocks). split; [constructor; assumption|].
    unfold printed in *. rewrite omap_app, Hp1, Hp2. reflexivity.
Qed.

(** X12.  When users returns, what it printed is, for every row the
    query returned and in that order, the four-line block of the row: the
    identifier, the e-mail, "last , first" and the folder.  Every row had
    at least five cells with text in the two name cells, or users would
    not have returned. *)
Theorem users_output (dbConn : conn) (t : trace) :
  exec (users dbConn) t (Returned tt) ->
  exists rows blocks,
    hd_error t = Some (Ev (RetrieveAllRows dbConn list_user_query []) (Ok rows)) /\
    Forall2 (fun r b => user_lines r = Some b) rows blocks /\
    printed t = concat blocks.
Proof.
  intros Hex. unfold users in Hex. cbn in Hex.
  destruct Hex as [(rows & t' & -> & Hex) | (e & _ & He)]; [|discriminate He].
  eapply (for_each_prints user_lines) in Hex.
  - destruct Hex as (blocks & Hall & Hp).
    exists rows, blocks. split; [reflexivity|]. split; [exact Hall | exact Hp].
  - clear. intros r t Hex.
    destruct r as [| c0 [| c1 [| c2 [| c3 [| c4 r]]]]];
      exec_inv Hex; tidy; eexists; split; reflexivity.
Qed.

(** X13.  When assets returns, what it printed is, for every row the
    query returned and in that order, the four-line block of the row;
    every row had exactly four cells. *)
Theorem assets_output (dbConn : conn) (t : trace) :
  exec (assets dbConn) t (Returned tt) ->
  exists rows blocks,
    hd_error t = Some (Ev (RetrieveAllRows dbConn list_asset_query []) (Ok rows)) /\
    Forall2 (fun r b => asset_lines r = Some b) rows blocks /\
    printed t = concat blocks.
Proof.
  intros Hex. unfold assets in Hex. cbn in Hex.
  destruct Hex as [(rows & t' & -> & Hex) | (e & _ & He)]; [|discriminate He].
  eapply (for_each_prints asset_lines) in Hex.
  - destruct Hex as (blocks & Hall & Hp).
    exists rows, blocks. split; [reflexivity|]. split; [exact Hall | exact Hp].
  - clear. intros r t Hex.
    destruct r as [| c0 [| c1 [| c2 [| c3 [| c4 r]]]]];
      exec_inv Hex; tidy; eexists; split; reflexivity.
Qed.

Lemma users_output_witness :
  let r := run Model.env (users 1)
             (Model.initial [] [] []
                [Model.User 3 "a@b.com" "Smith" "Jane" "f-3";
                 Model.User 9 "c@d.com" "Doe" "Pat" "f-9"] true) in
  outcome_of r = Returned tt /\
  printed (trace_of r) =
    ["User Id: 9"; "  Email: c@d.com"; "  Name: Doe , Pat"; "  Folder: f-9";
     "User Id: 3"; "  Email: a@b.com"; "  Name: Smith , Jane"; "  Folder: f-3"] /\
  exists rows blocks,
    hd_error (trace_of r) =
      Some (Ev (RetrieveAllRows 1 list_user_query []) (Ok rows)) /\
    Forall2 (fun r b => user_lines r = Some b) rows blocks /\
    printed (trace_of r) = concat blocks.
Proof.
  intros r.
  assert (Ho : outcome_of r = Returned tt) by (vm_compute; reflexivity).
  split; [exact Ho|]. split; [vm_compute; reflexivity|].
  apply (users_output 1).
  rewrite <- Ho. exact (run_is_exec Model.env _ _).
Defined.

Lemma assets_output_witness :
  let w0 := world_of (run Model.env (upload 1 "photoapp-bucket")
              (Model.initial ["cat.jpg"; "1"] ["k-1"] [("cat.jpg", "JPEG")]
                 [Model.User 1 "a@b.com" "Smith" "Jane" "f-1"] true)) in
  let r := run Model.env (assets 1) w0 in
  outcome_of r = Returned tt /\
  printed (trace_of r) =
    ["Asset id: 1"; "  User id: 1"; "  Original name: cat.jpg";
     "  Key name: k-1.jpg"] /\
  exists rows blocks,
    hd_error (trace_of r) =
      Some (Ev (RetrieveAllRows 1 list_asset_query []) (Ok rows)) /\
    Forall2 (fun r b => asset_lines r = Some b) rows blocks /\
    printed (trace_of r) = concat blocks.
Proof.
  intros w0 r.
  assert (Ho : outcome_of r = Returned tt) by (vm_compute; reflexivity).
  split; [exact Ho|]. split; [vm_compute; reflexivity|].
  apply (assets_output 1).
  rewrite <- Ho. exact (run_is_exec Model.env _ _).
Defined.


(** ** The start-up code and the end of a session *)



(** X15.  When the port number of the configuration is not a number, the
    start-up code raises [ValueError] right after reading it: the process
    ends with status 1, without the error message of the other start-up
    failures and before any connection to the database is tried. *)
Theorem port_not_a_number (fuel : nat) (t : trace) (o : outcome loop_state)
    (s : string) :
  exec (main fuel) t o ->
  In (Ev (ConfigGet "rds" "port_number") (Ok s)) t ->
  Py.int s = None ->
  o = Raised ValueError /\ exit_status o = 1 /\
  (exists pre, t = pre ++ [Ev (ConfigGet "rds" "port_number") (Ok s)]) /\
  existsb is_connect t = false.
Proof.
  intros Hex Hin Hs. unfold main in Hex.
  exec_inv Hex; in_inv Hin; tidy; try congruence; try (in_loop Hex Hin).
  split; [reflexivity|]. split; [reflexivity|].
  split; [eexists [_; _; _; _; _; _; _; _; _; _; _; _; _]; reflexivity|].
  reflexivity.
Qed.

(** The reference configuration with a port that is not a number. *)
Lemma port_not_a_number_witness :
  let w := Model.initial [""] [] [("photoapp-config.ini", "")] [] true in
  let w' := Model.World (Model.stdin w) (Model.stdout w) (Model.disk w)
              (Model.fresh_ids w)
              [("s3", "bucket_name", "photoapp-bucket");
               ("rds", "endpoint", "db.example.org");
               ("rds", "port_number", "33o6")]
              true [] [] 0 (Model.blobs w) in
  let r := run Model.env (main 2) w' in
  In (Ev (ConfigGet "rds" "port_number") (Ok "33o6")) (trace_of r) /\
  Py.int "33o6" = None /\
  outcome_of r = Raised ValueError /\ exit_status (outcome_of r) = 1 /\
  (exists pre, trace_of r = pre ++ [Ev (ConfigGet "rds" "port_number") (Ok "33o6")]) /\
  existsb is_connect (trace_of r) = false.
Proof.
  intros w w' r.
  assert (Hin : In (Ev (ConfigGet "rds" "port_number") (Ok "33o6")) (trace_of r))
    by in_list.
  split; [exact Hin|]. split; [reflexivity|].
  exact (port_not_a_number 2 _ _ _ (run_is_exec Model.env _ _) Hin eq_refl).
Defined.

(** Every execution of the loop that leaves through its test has read a
    line that stands for 0 as its last event. *)
Lemma exec_loop_terminated (bucketname : string) (bucket : s3_bucket)
    (endpoint : string) (dbConn : conn) (fuel : nat) (t : trace) :
  exec (command_loop bucketname bucket endpoint dbConn fuel) t (Returned TERMINATED) ->
  exists pre s, t = pre ++ [Ev Input (Ok s)] /\ Py.int s = Some 0.
Proof.
  revert t. induction fuel as [| fuel IH]; intros t Hex.
  - destruct Hex as [_ Ho]. discriminate Ho.
  - rewrite command_loop_S in Hex.
    apply exec_bind in Hex as [(cmd & t1 & t2 & H1 & H2 & ->) | (e & _ & He)];
      [|discriminate He].
    destruct (Z.eqb_spec cmd 0) as [-> | Hc].
    + destruct H2 as [-> _]. rewrite app_nil_r. apply prompt_returns, H1.
    + apply exec_bind in H2 as [([] & t3 & t4 & H3 & H4 & ->) | (e & _ & He)];
        [|discriminate He].
      destruct (IH t4 H4) as (pre & s & -> & Hs).
      exists (t1 ++ t3 ++ pre), s. split; [|exact Hs].
      rewrite <- !app_assoc. reflexivity.
Qed.

(** X16.  A run of the program that ends normally has read a command
    that stands for 0 and then printed an empty line and "** done **" as
    its last two calls. *)
Theorem session_ends_with_done (fuel : nat) (t : trace) :
  exec (main fuel) t (Returned TERMINATED) ->
  exists pre s,
    t = pre ++ [Ev Input (Ok s); Ev (Print "") (Ok tt);
                Ev (Print "** done **") (Ok tt)]
    /\ Py.int s = Some 0.
Proof.
  intros Hex. unfold main in Hex.
  exec_inv Hex; tidy.
  apply exec_bind in Hex as [(st & t1 & t2 & H1 & H2 & ->) | (e & _ & He)];
    [|discriminate He].
  destruct st; [destruct H2 as [_ Ho]; discriminate Ho|].
  apply exec_loop_terminated in H1 as (pre & s & -> & Hs).
  exec_inv H2; tidy.
  eexists (_ :: _ :: _ :: _ :: _ :: _ :: _ :: _ :: _ :: _ :: _ :: _ :: _ :: _
           :: _ :: _ :: _ :: _ :: pre), s.
  split; [|exact Hs].
  cbn. rewrite <- app_assoc. reflexivity.
Qed.

Lemma session_ends_with_done_witness :
  let r := run Model.env (main 5)
             (Model.initial [""; "2"; " ٠ "] [] [("photoapp-config.ini", "")]
                [] true) in
  outcome_of r = Returned TERMINATED /\
  exists pre s,
    trace_of r = pre ++ [Ev Input (Ok s); Ev (Print "") (Ok tt);
                         Ev (Print "** done **") (Ok tt)]
    /\ Py.int s = Some 0.
Proof.
  intros r.
  assert (Ho : outcome_of r = Returned TERMINATED) by (vm_compute; reflexivity).
  split; [exact Ho|].
  apply (session_ends_with_done 5).
  rewrite <- Ho. exact (run_is_exec Model.env _ _).
Defined.


(** ** Upload, then download *)

(** Outcome and final world of a run. *)
Lemma ow_step {W B : Type} (env : forall c : call, W -> result (answer c) * W)
    (P : outcome B * W -> Prop) (c : call) (f : answer c -> prog B)
    (w w1 : W) (x : answer c) :
  env c w = (Ok x, w1) ->
  P (outcome_of (run env (f x) w1), world_of (run env (f x) w1)) ->
  P (outcome_of (run env (bind (perform c) f) w),
     world_of (run env (bind (perform c) f) w)).
Proof.
  intros E H. unfold outcome_of, world_of in *. simpl. rewrite E.
  destruct (run env (f x) w1) as [[o w2] t]. exact H.
Qed.

Lemma ow_last {W : Type} (env : forall c : call, W -> result (answer c) * W)
    (P : outcome unit * W -> Prop) (line : string) (w w1 : W) :
  env (Print line) w = (Ok tt, w1) ->
  P (Returned tt, w1) ->
  P (outcome_of (run env (perform (Print line)) w),
     world_of (run env (perform (Print line)) w)).
Proof.
  intros E H. unfold outcome_of, world_of. simpl. rewrite E. exact H.
Qed.

(** The answers of the reference database to the statements of upload
    and download. *)
Lemma retrieve_check_user (w : Model.world) (uid : string) :
  Model.retrieve_one_row w check_user_query [VStr uid] =
  match Model.find_user uid (Model.users_tbl w) with
  | Some u => Ok (Some [VInt (Model.userid u)])
  | None => Ok (Some [])
  end.
Proof. reflexivity. Qed.

Lemma retrieve_file_info (w : Model.world) (id : string) :
  Model.retrieve_one_row w file_info_query [VStr id] =
  match Model.find_asset id (Model.assets_tbl w) with
  | Some a => Ok (Some [VStr (Model.bucketkey a); VStr (Model.assetname a)])
  | None => Ok (Some [])
  end.
Proof. reflexivity. Qed.

Lemma retrieve_last_id (w : Model.world) :
  Model.retrieve_one_row w last_id_query [] = Ok (Some [VInt (Model.last_insert w)]).
Proof. reflexivity. Qed.

Lemma perform_insert_asset (w : Model.world) (uid name key : string) :
  Model.perform_action w insert_asset_query [VStr uid; VStr name; VStr key] =
  match Model.find_user uid (Model.users_tbl w) with
  | Some u =>
      (Ok 1,
       Model.add_asset_row w
         (Model.Asset (Model.next_id (map Model.assetid (Model.assets_tbl w)))
            (Model.userid u) name key))
  | None => (Err StoreError, w)
  end.
Proof. reflexivity. Qed.

#[local] Arguments Model.find_user : simpl never.
#[local] Arguments Model.find_asset : simpl never.
#[local] Arguments Model.next_id : simpl never.

(** One call in the reference environment, answered from the facts at
    hand. *)
Ltac mstep :=
  unfold mbind, prog_bind, print, input; cbv beta;
  lazymatch goal with
  | |- ?P (outcome_of (run _ (bind (perform ?c) ?f) ?w), _) =>
      eapply (ow_step Model.env P c f w)
  end;
  [ cbn [Model.env];
    rewrite ?retrieve_check_user, ?retrieve_file_info, ?retrieve_last_id,
      ?perform_insert_asset;
    unfold Model.upload_file, Model.download_file;
    unfold Model.set_stdin, Model.set_stdout, Model.set_disk,
      Model.set_fresh_ids, Model.set_blobs, Model.add_asset_row,
      Model.add_user_row;
    cbn [Model.stdin Model.stdout Model.disk Model.fresh_ids Model.config
         Model.db_up Model.users_tbl Model.assets_tbl Model.last_insert
         Model.blobs];
    repeat match goal with H : _ = _ |- _ => rewrite H end;
    cbn [Model.stdin Model.stdout Model.disk Model.fresh_ids Model.config
         Model.db_up Model.users_tbl Model.assets_tbl Model.last_insert
         Model.blobs];
    reflexivity
  | cbv beta;
    repeat match goal with
      | H : truthy_str _ = true |- _ => rewrite H
      end;
    cbn [negb truthy_row truthy_str default from_option id String.append
         subscript unpack2 nth_error bind];
    try change (1 <=? 0) with false;
    try (rewrite bool_decide_eq_true_2 by (eexists; reflexivity));
    cbv iota; cbn [negb] ].

Ltac mlast :=
  unfold mbind, prog_bind, print, input; cbv beta;
  lazymatch goal with
  | |- ?P (outcome_of (run _ (perform (Print ?line)) ?w), _) =>
      eapply (ow_last Model.env P line w)
  end;
  [ cbn; reflexivity | ].

Lemma upload_then_world (dbConn : conn) (bucket : s3_bucket) (w : Model.world)
    (local uid content fresh : string) (rest ids : list string)
    (u : Model.user) :
  Model.stdin w = local :: uid :: rest ->
  Model.disk w !! local = Some content ->
  Model.find_user uid (Model.users_tbl w) = Some u ->
  Model.fresh_ids w = fresh :: ids ->
  fresh <> "" ->
  let r := run Model.env (upload dbConn bucket) w in
  outcome_of r = Returned tt /\
  Model.stdin (world_of r) = rest /\
  Model.assets_tbl (world_of r) =
    Model.Asset (Model.next_id (map Model.assetid (Model.assets_tbl w)))
      (Model.userid u) local (fresh +:+ suffix local) :: Model.assets_tbl w /\
  Model.blobs (world_of r) = <[fresh +:+ suffix local := content]> (Model.blobs w).
Proof.
  intros Hin Hdisk Hu Hids Hfresh r. subst r.
  assert (Htr : truthy_str (Some (fresh +:+ suffix local)) = true)
    by (destruct fresh; [contradiction | reflexivity]).
  set (P := fun ow : outcome unit * Model.world =>
    fst ow = Returned tt /\
    Model.stdin (snd ow) = rest /\
    Model.assets_tbl (snd ow) =
      Model.Asset (Model.next_id (map Model.assetid (Model.assets_tbl w)))
        (Model.userid u) local (fresh +:+ suffix local) :: Model.assets_tbl w /\
    Model.blobs (snd ow) = <[fresh +:+ suffix local := content]> (Model.blobs w)).
  change (P (outcome_of (run Model.env (upload dbConn bucket) w),
             world_of (run Model.env (upload dbConn bucket) w))).
  unfold upload.
  repeat mstep. mlast.
  subst P. cbn. repeat split; reflexivity.
Qed.

(** Downloading the asset that heads the table, whatever is on the local
    disk by then. *)
Lemma download_head_asset (dbConn : conn) (bucket : s3_bucket)
    (w : Model.world) (id : string) (rest : list string) (a : Model.asset)
    (others : list Model.asset) (content : string) :
  Model.stdin w = id :: rest ->
  Model.assets_tbl w = a :: others ->
  Py.int id = Some (Model.assetid a) ->
  Model.blobs w !! Model.bucketkey a = Some content ->
  Model.assetname a <> "" ->
  let r := run Model.env (download dbConn bucket false) w in
  outcome_of r = Returned tt /\
  Model.disk (world_of r) = <[Model.assetname a := content]> (Model.disk w).
Proof.
  intros Hin Htbl Hid Hblob Hname r. subst r.
  assert (Hfind : Model.find_asset id (a :: others) = Some a).
  { unfold Model.find_asset, Model.matches. simpl. rewrite Hid, Z.eqb_refl.
    reflexivity. }
  assert (Htr : truthy_str (Some (Model.assetname a)) = true)
    by (destruct (Model.assetname a); [contradiction | reflexivity]).
  set (P := fun ow : outcome unit * Model.world =>
    fst ow = Returned tt /\
    Model.disk (snd ow) = <[Model.assetname a := content]> (Model.disk w)).
  change (P (outcome_of (run Model.env (download dbConn bucket false) w),
             world_of (run Model.env (download dbConn bucket false) w))).
  unfold download.
  repeat mstep.
  subst P. split; reflexivity.
Qed.

(** X17.  In the reference environment, a file uploaded for an existing
    user comes back: a download of the identifier the new asset row got,
    whatever has happened to the local disk in between, returns and
    leaves under the original file name the content that was uploaded. *)
Theorem upload_download_round_trip (dbConn : conn) (bucket : s3_bucket)
    (w : Model.world) (local uid id content fresh : string)
    (rest ids : list string) (u : Model.user) (later : gmap string string) :
  Model.stdin w = local :: uid :: id :: rest ->
  Model.disk w !! local = Some content ->
  Model.find_user uid (Model.users_tbl w) = Some u ->
  Model.fresh_ids w = fresh :: ids ->
  fresh <> "" ->
  local <> "" ->
  Py.int id = Some (Model.next_id (map Model.assetid (Model.assets_tbl w))) ->
  let w1 := world_of (run Model.env (upload dbConn bucket) w) in
  let r2 := run Model.env (download dbConn bucket false) (Model.set_disk w1 later) in
  outcome_of (run Model.env (upload dbConn bucket) w) = Returned tt /\
  outcome_of r2 = Returned tt /\
  Model.disk (world_of r2) !! local = Some content.
Proof.
  intros Hin Hdisk Hu Hids Hfresh Hlocal Hid w1 r2.
  destruct (upload_then_world dbConn bucket w local uid content fresh
              (id :: rest) ids u Hin Hdisk Hu Hids Hfresh)
    as (Ho & Hin1 & Htbl1 & Hblobs1).
  fold w1 in Hin1, Htbl1, Hblobs1.
  split; [exact Ho|].
  destruct (download_head_asset dbConn bucket (Model.set_disk w1 later) id rest
              _ _ content Hin1 Htbl1 Hid) as (Ho2 & Hd2).
  - cbn. rewrite Hblobs1. apply lookup_insert_eq.
  - exact Hlocal.
  - split; [exact Ho2|]. subst r2. rewrite Hd2. cbn. apply lookup_insert_eq.
Qed.

Lemma upload_download_round_trip_witness :
  let w := Model.initial ["cat.jpg"; "7"; "1"] ["k-1"] [("cat.jpg", "JPEG")]
             [Model.User 7 "a@b.com" "Smith" "Jane" "f-1"] true in
  let w1 := world_of (run Model.env (upload 1 "photoapp-bucket") w) in
  let r2 := run Model.env (download 1 "photoapp-bucket" false)
              (Model.set_disk w1 ∅) in
  outcome_of (run Model.env (upload 1 "photoapp-bucket") w) = Returned tt /\
  outcome_of r2 = Returned tt /\
  Model.disk (world_of r2) !! "cat.jpg" = Some "JPEG".
Proof.
  intros w.
  refine (upload_download_round_trip 1 "photoapp-bucket" w "cat.jpg" "7" "1"
            "JPEG" "k-1" [] [] (Model.User 7 "a@b.com" "Smith" "Jane" "f-1") ∅
            eq_refl _ _ eq_refl _ _ _).
  - vm_compute. reflexivity.
  - vm_compute. reflexivity.
  - discriminate.
  - discriminate.
  - vm_compute. reflexivity.
Defined.


